(** * ETF daily-briefing scraper: extraction, orchestration and delivery

    A shallow embedding of the briefing pipeline of the repository
    ([scraper.py], [main.py], [scheduler.py], [telegram_sender.py]) and the
    properties its specification states about it.

    Python [str] values are sequences of Unicode code points, so that [len],
    slicing and [startswith] mean what they mean in the source.  Calls into
    Selenium and BeautifulSoup are the boundary of the embedding: what they
    return (or raise) is an input of the model. *)

From Stdlib Require Import List NArith Arith Bool String Ascii DecimalString Lia.
From Stdlib Require Import Permutation Sorted.
Import ListNotations.

Open Scope list_scope.

(* ================================================================== *)
(** ** Python strings *)
(* ================================================================== *)

Module PyStr.

(** A Python [str]: the list of its code points. *)
Definition pystr := list N.

(** *** Literals

    Source literals are written as UTF-8 text and decoded to code points. *)

Definition byte_val (a : ascii) : N := N_of_ascii a.

Fixpoint string_bytes (s : string) : list N :=
  match s with
  | EmptyString => []
  | String a r => byte_val a :: string_bytes r
  end.

(** Value bits of a continuation byte [10xxxxxx]. *)
Definition cont (b : N) : N := N.land b 63.

Fixpoint utf8_decode (fuel : nat) (bs : list N) : pystr :=
  match fuel with
  | O => []
  | S fuel' =>
    match bs with
    | [] => []
    | b0 :: r0 =>
      if (b0 <? 128)%N then b0 :: utf8_decode fuel' r0
      else if (b0 <? 224)%N then
        match r0 with
        | b1 :: r1 => (N.land b0 31 * 64 + cont b1)%N :: utf8_decode fuel' r1
        | _ => []
        end
      else if (b0 <? 240)%N then
        match r0 with
        | b1 :: b2 :: r2 =>
            (N.land b0 15 * 4096 + cont b1 * 64 + cont b2)%N :: utf8_decode fuel' r2
        | _ => []
        end
      else
        match r0 with
        | b1 :: b2 :: b3 :: r3 =>
            (N.land b0 7 * 262144 + cont b1 * 4096 + cont b2 * 64 + cont b3)%N
              :: utf8_decode fuel' r3
        | _ => []
        end
    end
  end.

Definition py (s : string) : pystr :=
  let bs := string_bytes s in utf8_decode (List.length bs) bs.

Definition nl : pystr := [10%N].

(** *** Comparison *)

Fixpoint eqb (a b : pystr) : bool :=
  match a, b with
  | [], [] => true
  | x :: a', y :: b' => (x =? y)%N && eqb a' b'
  | _, _ => false
  end.

(** Python truthiness of a [str]. *)
Definition truthy (s : pystr) : bool :=
  match s with [] => false | _ => true end.

(** Truthiness of an [Optional[str]]. *)
Definition truthy_opt (o : option pystr) : bool :=
  match o with Some s => truthy s | None => false end.

(** *** [startswith], [endswith], [in] *)

Fixpoint startswith (s p : pystr) {struct p} : bool :=
  match p with
  | [] => true
  | c :: p' =>
    match s with
    | [] => false
    | d :: s' => (c =? d)%N && startswith s' p'
    end
  end.

Definition endswith (s p : pystr) : bool :=
  startswith (rev s) (rev p).

(** [sub in s]. *)
Fixpoint contains (s sub : pystr) : bool :=
  startswith s sub ||
  match s with
  | [] => false
  | _ :: s' => contains s' sub
  end.

(** *** Slices [s[:n]] and [s[n:]] for [n >= 0]. *)

Definition slice_to (n : nat) (s : pystr) : pystr := firstn n s.
Definition slice_from (n : nat) (s : pystr) : pystr := skipn n s.

(** *** [str.split(sep)] for a non-empty separator

    Scans left to right; at each occurrence of [sep] the field collected so
    far is closed and the scan resumes after the separator. *)

Fixpoint split_go (fuel : nat) (sep : pystr) (s : pystr) (cur : pystr)
  : list pystr :=
  match fuel with
  | O => [rev cur ++ s]
  | S fuel' =>
    match s with
    | [] => [rev cur]
    | c :: s' =>
      if startswith s sep
      then rev cur :: split_go fuel' sep (skipn (List.length sep) s) []
      else split_go fuel' sep s' (c :: cur)
    end
  end.

Definition split (s sep : pystr) : list pystr :=
  split_go (S (List.length s)) sep s [].

(** *** Whitespace, [strip()], [split()] *)

(** [str.isspace] on one code point. *)
Definition is_space (c : N) : bool :=
  ((9 <=? c) && (c <=? 13) || (28 <=? c) && (c <=? 32)
   || (c =? 133) || (c =? 160) || (c =? 5760)
   || (8192 <=? c) && (c <=? 8202)
   || (c =? 8232) || (c =? 8233) || (c =? 8239) || (c =? 8287)
   || (c =? 12288))%N.

Fixpoint lstrip (s : pystr) : pystr :=
  match s with
  | c :: s' => if is_space c then lstrip s' else s
  | [] => []
  end.

Definition rstrip (s : pystr) : pystr := rev (lstrip (rev s)).

Definition strip (s : pystr) : pystr := rstrip (lstrip s).

(** [str.split()] with no argument: maximal runs of non-whitespace. *)
Fixpoint words_go (s : pystr) (cur : pystr) : list pystr :=
  match s with
  | [] => match cur with [] => [] | _ => [rev cur] end
  | c :: s' =>
    if is_space c
    then match cur with
         | [] => words_go s' []
         | _ => rev cur :: words_go s' []
         end
    else words_go s' (c :: cur)
  end.

Definition words (s : pystr) : list pystr := words_go s [].

(** *** [sep.join(parts)] *)

Fixpoint join (sep : pystr) (parts : list pystr) : pystr :=
  match parts with
  | [] => []
  | [p] => p
  | p :: rest => p ++ sep ++ join sep rest
  end.

(** *** [str.replace(old, new)] and [str.replace(old, new, 1)],
        for a non-empty [old]. *)

Definition replace (s old new : pystr) : pystr :=
  join new (split s old).

Definition replace_first (s old new : pystr) : pystr :=
  match split s old with
  | [] => s
  | [_] => s
  | p :: _ => p ++ new ++ skipn (List.length p + List.length old) s
  end.

End PyStr.

Import PyStr.


(* ================================================================== *)
(** ** Exceptions *)
(* ================================================================== *)

(** A computation that returns a value or raises an [Exception], the
    latter seen through its message [str(e)]. *)
Inductive outcome (A : Type) : Type :=
| Returned (a : A)
| Raised (e : pystr).

Arguments Returned {A} a.
Arguments Raised {A} e.

Definition bind {A B} (c : outcome A) (k : A -> outcome B) : outcome B :=
  match c with
  | Returned a => k a
  | Raised e => Raised e
  end.

Notation "x <- c ;; k" := (bind c (fun x => k))
  (at level 61, c at next level, right associativity).
Notation "c ;;; k" := (bind c (fun _ => k))
  (at level 61, right associativity).

(** [try: body  except Exception as e: handler(e)]. *)
Definition try_except {A} (body : outcome A) (handler : pystr -> outcome A)
  : outcome A :=
  match body with
  | Returned a => Returned a
  | Raised e => handler e
  end.

(** [xs[i]]: raises [IndexError] out of range. *)
Definition item_at {A} (xs : list A) (i : nat) : outcome A :=
  match nth_error xs i with
  | Some x => Returned x
  | None => Raised (py "list index out of range")
  end.

(* ================================================================== *)
(** ** scraper.py *)
(* ================================================================== *)

Module Scraper.

(** *** What the extractor observes of a rendered page *)

(** [item.find("div", class_="styles_article__0oE8K")], when present. *)
Record news_block := {
  (** [get_text(strip=True)] of the [styles_title__ummjn] div, if found *)
  news_title : option pystr;
  (** [get_text(strip=True)] of the [styles_info__OeSIl] span, if found *)
  news_source : option pystr;
  (** [href] of [news_div.find_parent("a")], if both exist *)
  parent_href : option pystr;
  (** [href] of [news_div.find("a")], if both exist *)
  inner_href : option pystr
}.

(** One [div.styles_container__oDEu1]. *)
Record stock_item := {
  (** [get_text(strip=True)] of its [styles_briefing__t15bx] div *)
  stock_briefing : option pystr;
  (** [get_text(strip=True)] of its [styles_stockInfo__ttpG6] div *)
  stock_info : option pystr;
  article : option news_block
}.

(** The block two [div] ancestors above the matched heading. *)
Record section_obs := {
  (** [get_text(strip=True)] of each direct [p] child *)
  paragraphs : list pystr;
  (** [briefing_section.text] *)
  section_text : pystr
}.

(** The first [h3] whose string contains the briefing marker, and its
    two enclosing [div]s. *)
Inductive heading_obs :=
| NoHeading                       (* no such [h3] *)
| HeadingNoDiv                    (* the [h3] has no [div] ancestor *)
| HeadingOneDiv                   (* it has one, which has none *)
| HeadingIn (sec : section_obs).

Record page := {
  (** [self.driver.get(url)] *)
  driver_get : outcome unit;
  (** [WebDriverWait(...).until(...)] *)
  wait_body : outcome unit;
  (** [self.driver.page_source] *)
  page_source : outcome unit;
  (** writing the snapshot under [html_outputs/] *)
  save_html : outcome unit;
  heading : heading_obs;
  (** text of [div.styles_briefingInner__8_73I] *)
  briefing_inner : option pystr;
  (** text of [div.styles_briefingInner__WBq3C], and whether it has a parent *)
  briefing_inner_stock : option (pystr * bool);
  (** text of the first [div] whose class mentions "price" / "change" *)
  price_div : option pystr;
  change_div : option pystr;
  (** text of the first [div] whose string mentions "2025" or "%" *)
  marker_div : option pystr;
  (** all [div.styles_container__oDEu1] *)
  stock_items : list stock_item;
  (** [div.styles_price___G1Hf]: its text and that of its change child *)
  brku_price : option (pystr * option pystr);
  (** [execute_script] of the link script and of the [onclick] script *)
  script_links : outcome (list pystr);
  fallback_links : outcome (list pystr);
  (** iteration order of a Python [set] built from a list *)
  set_order : list pystr -> list pystr;
  (** [datetime.now()] and the day before, as formatted by the source *)
  today : pystr;
  yesterday : pystr
}.

(** *** Constituent mentions *)

Definition is_upper (c : N) : bool := ((65 <=? c) && (c <=? 90))%N.

Fixpoint take_upper (s : pystr) : pystr * pystr :=
  match s with
  | c :: s' =>
    if is_upper c
    then let '(u, r) := take_upper s' in (c :: u, r)
    else ([], s)
  | [] => ([], [])
  end.

(** [re.search(r'\(([A-Z]+)\)', s)], group 1 of the first match. *)
Fixpoint search_ticker (s : pystr) : option pystr :=
  match s with
  | [] => None
  | c :: s' =>
    if (c =? 40)%N then
      match take_upper s' with
      | ((_ :: _) as u, d :: _) =>
          if (d =? 41)%N then Some u else search_ticker s'
      | _ => search_ticker s'
      end
    else search_ticker s'
  end.

Definition fell : pystr := py "하락하여".
Definition rose : pystr := py "상승하여".
Definition dollars_at : pystr := py "달러에".
Definition shares : pystr := py "주식이".
Definition space : pystr := py " ".
Definition comma : pystr := py ",".

(** The values of [price] and [change] after the first attempt
    (lines 247-261), on the second comma-separated field. *)
Definition price_change (field : pystr) (marker : pystr) (sign : pystr)
  : outcome (option pystr * option pystr) :=
  let parts := split field marker in
  change <- (match parts with
             | [] => Returned None
             | _ => p0 <- item_at parts 0 ;;
                    Returned (Some (sign ++ replace (strip p0) space []))
             end) ;;
  price_parts <- (if 1 <? List.length parts
                  then p1 <- item_at parts 1 ;; Returned (split p1 dollars_at)
                  else Returned []) ;;
  price <- (match price_parts with
            | [] => Returned None
            | _ => q0 <- item_at price_parts 0 ;; Returned (Some (strip q0))
            end) ;;
  Returned (price, change).

Definition first_attempt (field : pystr)
  : outcome (option pystr * option pystr) :=
  if contains field fell then price_change field fell []
  else if contains field rose then price_change field rose (py "+")
  else Returned (None, None).

(** The second attempt (lines 265-283), on the whole briefing text, inside
    its own [try]: an exception keeps what was assigned before it. *)
Definition second_attempt_with (content marker sign : pystr)
    (price change : option pystr) : option pystr * option pystr :=
  let parts := split content marker in
  match (p0 <- item_at parts 0 ;;
         if contains p0 shares
         then x <- item_at (split p0 shares) 1 ;; Returned (Some (strip x))
         else Returned None) with
  | Raised _ => (price, change)
  | Returned change_part =>
    let change' :=
      match change_part with
      | Some cp => if truthy cp then Some (sign ++ replace cp space []) else None
      | None => None
      end in
    match (price_parts <- (if 1 <? List.length parts
                           then p1 <- item_at parts 1 ;;
                                Returned (split p1 dollars_at)
                           else Returned []) ;;
           match price_parts with
           | [] => Returned None
           | _ => q0 <- item_at price_parts 0 ;; Returned (Some (strip q0))
           end) with
    | Raised _ => (price, change')
    | Returned price' => (price', change')
    end
  end.

Definition second_attempt (content : pystr) (price change : option pystr)
  : option pystr * option pystr :=
  if contains content fell then second_attempt_with content fell [] price change
  else if contains content rose
       then second_attempt_with content rose (py "+") price change
       else (price, change).

(** [stock_name], or [None] where the source [continue]s (lines 236-244). *)
Definition stock_name_of (content : pystr) (stock_ticker : option pystr)
  : outcome (option pystr) :=
  if contains content comma && contains content (py " 주식이 ")
  then f0 <- item_at (split content comma) 0 ;;
       let name := join space (skipn 3 (words f0)) in
       Returned (Some (if truthy_opt stock_ticker
                       then match stock_ticker with
                            | Some t => name ++ py " (" ++ t ++ py ")"
                            | None => name
                            end
                       else name))
  else Returned None.

(** The three variables tested on line 286. *)
Record mention := {
  name : pystr;
  price : option pystr;
  change : option pystr
}.

(** Lines 216-283: the mention parsed from one item; [None] where the
    source [continue]s. *)
Definition parse_mention (item : stock_item) : outcome (option mention) :=
  match stock_briefing item with
  | None => Returned None
  | Some content =>
    let stock_ticker :=
      match stock_info item with
      | Some ticker_text => search_ticker ticker_text
      | None => None
      end in
    n <- stock_name_of content stock_ticker ;;
    match n with
    | None => Returned None
    | Some stock_name =>
      f1 <- item_at (split content comma) 1 ;;
      pc <- first_attempt (strip f1) ;;
      let '(p, c) := pc in
      let '(p, c) :=
        if negb (truthy_opt p) || negb (truthy_opt c)
        then match stock_info item with
             | Some _ => second_attempt content p c
             | None => (p, c)
             end
        else (p, c) in
      Returned (Some {| name := stock_name; price := p; change := c |})
    end
  end.

(** Lines 286-289: the header appended to [stocks_info], if any. *)
Definition stock_header (m : mention) : option pystr :=
  match price m, change m with
  | Some p, Some c =>
    if truthy (name m) && truthy p && truthy c
    then Some (nl ++ nl ++ py "━━━ " ++ name m ++ py " ━━━" ++ nl
                  ++ py "$" ++ p ++ py " (" ++ c ++ py "%)")
    else None
  | _, _ => None
  end.

Definition origin : pystr := py "https://invest.zum.com".

(** Lines 292-321: the entry appended to [news_items], if any. *)
Definition news_item_of (item : stock_item) : option pystr :=
  match article item with
  | None => None
  | Some news_div =>
    let news_link :=
      if truthy_opt (parent_href news_div) then parent_href news_div
      else if truthy_opt (inner_href news_div) then inner_href news_div
      else None in
    match news_title news_div, news_source news_div with
    | Some title, Some source =>
      let news_link :=
        match news_link with
        | Some l => if truthy l && negb (startswith l (py "http"))
                    then Some (origin ++ l) else Some l
        | None => None
        end in
      let news_item := title ++ py " - " ++ source in
      Some (if truthy_opt news_link
            then match news_link with
                 | Some l => news_item ++ nl ++ py "    " ++ l
                 | None => news_item
                 end
            else news_item)
    | _, _ => None
    end
  end.

Definition opt_list {A} (o : option A) : list A :=
  match o with Some a => [a] | None => [] end.

(** One turn of the loop over [stock_items] (lines 214-325) on the pair
    [(stocks_info, news_items)].  Every statement that can raise comes
    before the first [append], so an exception leaves both lists as they
    were. *)
Definition process_item (st : list pystr * list pystr) (item : stock_item)
  : list pystr * list pystr :=
  match parse_mention item with
  | Raised _ => st
  | Returned None => st
  | Returned (Some m) =>
    (fst st ++ opt_list (stock_header m), snd st ++ opt_list (news_item_of item))
  end.

Definition process_items (items : list stock_item)
  : list pystr * list pystr :=
  fold_left process_item items ([], []).

(** The mentions that reach [stocks_info]. *)
Definition emitted (m : mention) : bool :=
  match stock_header m with Some _ => true | None => false end.

(** *** Script-extracted links ([extract_news_links]) *)

Definition mem (x : pystr) (xs : list pystr) : bool := existsb (eqb x) xs.

(** The two tickers served under [/stock/]. *)
Definition stock_tickers : list pystr := [py "BLK"; py "IVZ"].

Definition base_url (ticker : pystr) : pystr :=
  origin ++ py "/" ++ (if negb (mem ticker stock_tickers) then py "etf" else py "stock")
         ++ py "/" ++ ticker ++ py "/".

Definition default_query : pystr :=
  py "?doctype=news&docid=5384592&isdomestic=false&istrending=false".

(** The body of the loop on lines 566-580. *)
Definition normalize_link (ticker link : pystr) : pystr :=
  let link :=
    if negb (startswith link (py "http"))
    then if startswith link (py "/") then origin ++ link
         else base_url ticker ++ link
    else link in
  if negb (contains link (py "docid=")) && negb (contains link (py "doctype=news"))
  then if negb (contains link (py "?")) then link ++ default_query else link
  else link.

Definition extract_news_links (pg : page) (ticker : pystr) : list pystr :=
  match (news_links <- script_links pg ;;
         news_links <- (match news_links with
                        | [] => fb <- fallback_links pg ;; Returned (news_links ++ fb)
                        | _ => Returned news_links
                        end) ;;
         Returned (set_order pg (map (normalize_link ticker) news_links))) with
  | Returned links => links
  | Raised _ => []
  end.

(** *** The briefing text *)

Definition daily_briefing : pystr := py "데일리 브리핑".
Definition daily_briefing_2025 : pystr := py "데일리 브리핑2025년".

(** The loop over the three markers (lines 189-202), with its [break]s. *)
Fixpoint cut_at_marker (markers : list pystr) (briefing_text : pystr)
  : outcome pystr :=
  match markers with
  | [] => Returned briefing_text
  | marker :: rest =>
    if contains briefing_text marker then
      if eqb marker daily_briefing_2025 then
        if startswith briefing_text daily_briefing
        then Returned (replace briefing_text daily_briefing (daily_briefing ++ nl))
        else cut_at_marker rest briefing_text
      else p0 <- item_at (split briefing_text marker) 0 ;; Returned (strip p0)
    else cut_at_marker rest briefing_text
  end.

Definition markers : list pystr :=
  [py "2025년"; py "C2025년"; daily_briefing_2025].

Definition or_na (o : option pystr) : pystr :=
  match o with Some s => s | None => py "N/A" end.

(** The sentence synthesized for an empty stock container (lines 147-160). *)
Definition default_briefing (pg : page) (ticker : pystr) : outcome pystr :=
  let price_text := or_na (price_div pg) in
  let change_text :=
    match change_div pg with
    | Some s => replace s nl space
    | None => py "N/A"
    end in
  if eqb ticker (py "BLK") then
    Returned (today pg ++ py ", 블랙록(BLK)은 " ++ change_text ++ space ++ price_text
      ++ py "으로 마감했습니다. 블랙록은 세계 최대 자산운용사로, 특히 ETF 시장에서 강력한 입지를 보유하고 있습니다. 최근 Blackrock의 iShares ETF 상품들은 투자자들의 큰 관심을 끌고 있습니다.")
  else if eqb ticker (py "IVZ") then
    Returned (today pg ++ py ", 인베스코(IVZ)는 " ++ change_text ++ space ++ price_text
      ++ py "으로 마감했습니다. 인베스코는 글로벌 투자관리 회사로, 다양한 ETF 및 펀드 상품을 제공하고 있습니다. 인베스코는 최근 ETF 시장에서의 경쟁력 강화를 위한 다양한 전략을 추진하고 있습니다.")
  else Raised (py "cannot access local variable 'briefing_text' where it is not associated with a value").

(** Lines 136-182: the text [alt_briefing.get_text(strip=True)] of the
    container that is found, if one is. *)
Definition alt_briefing (pg : page) (ticker : pystr) : outcome (option pystr) :=
  alt <- (match briefing_inner pg with
          | Some t => Returned (Some t)
          | None =>
            if mem ticker stock_tickers then
              match briefing_inner_stock pg with
              | Some (t, has_parent) =>
                if negb (truthy t)
                then briefing_text <- default_briefing pg ticker ;;
                     (* replaced by a new [div], or cleared and refilled *)
                     if has_parent then Returned (Some (strip briefing_text))
                     else Returned (Some (strip briefing_text))
                else Returned (Some t)
              | None => Returned None
              end
            else Returned None
          end) ;;
  match alt with
  | Some t => Returned (Some t)
  | None => Returned (marker_div pg)
  end.

(** [line + "."] unless it ends with one, for each non-empty piece. *)
Fixpoint briefing_lines_of (pieces : list pystr) : list pystr :=
  match pieces with
  | [] => []
  | line :: rest =>
    if truthy line
    then (if endswith line (py ".") then line else line ++ py ".")
           :: briefing_lines_of rest
    else briefing_lines_of rest
  end.

Definition brku_briefing (pg : page) (price_text change_text : pystr) : pystr :=
  yesterday pg ++ py ", DIREXION DAILY BRKB BULL 2X SHARES는 " ++ change_text
    ++ space ++ price_text
    ++ py "으로 마감하였습니다. 해당 ETF는 Berkshire Hathaway Inc.의 일일 변동성을 2배로 추종하는 구조를 가지고 있습니다. 따라서 Berkshire Hathaway Inc.의 긍정적인 시장 반응이 가격 상승에 기여하였습니다.".

(** Lines 337-355. *)
Definition fix_lone_heading (pg : page) (ticker : pystr)
    (briefing_lines : list pystr) : list pystr :=
  match briefing_lines with
  | [l] =>
    if eqb l (py "데일리 브리핑.") || eqb l daily_briefing then
      if eqb ticker (py "BRKU") then
        match brku_price pg with
        | Some (price_text, change) =>
          let change_text :=
            match change with
            | Some c => replace c nl space
            | None => []
            end in
          [brku_briefing pg price_text change_text]
        | None => briefing_lines
        end
      else [py "데일리 브리핑 - " ++ ticker]
    else briefing_lines
  | _ => briefing_lines
  end.

Definition scmp : pystr := py "SOUTH CHINA MORNING POST".
Definition marketbeat : pystr := py "MARKETBEAT".
Definition prnewswire : pystr := py "PR NEWSWIRE".

(** The chain of [replace] calls on lines 373-384. *)
Definition format_news_text (news_text : pystr) : pystr :=
  let t := replace news_text scmp (nl ++ scmp ++ space) in
  let t := replace t marketbeat (nl ++ marketbeat ++ space) in
  let t := replace t prnewswire (nl ++ prnewswire ++ space) in
  let t := replace t (scmp ++ py "12") (scmp ++ py " 12") in
  let t := replace t (marketbeat ++ py "12") (marketbeat ++ py " 12") in
  let t := replace t (marketbeat ++ py "17") (marketbeat ++ py " 17") in
  let t := replace t (marketbeat ++ py "18") (marketbeat ++ py " 18") in
  let t := replace t (marketbeat ++ py "19") (marketbeat ++ py " 19") in
  let t := replace t (marketbeat ++ py "20") (marketbeat ++ py " 20") in
  replace t (prnewswire ++ py "17") (prnewswire ++ py " 17").

Definition related_news : pystr := py "관련 뉴스:".

(** Lines 363-387. *)
Definition fix_news (ticker briefing : pystr) : outcome pystr :=
  if contains briefing scmp || contains briefing marketbeat
     || contains briefing prnewswire
  then
    if contains briefing (ticker ++ comma) then
      let parts := split briefing (ticker ++ comma) in
      if 1 <? List.length parts then
        p0 <- item_at parts 0 ;;
        p1 <- item_at parts 1 ;;
        let main_text := strip p0 in
        let news_text := format_news_text (ticker ++ comma ++ strip p1) in
        Returned (main_text ++ nl ++ nl ++ related_news ++ nl ++ nl ++ news_text)
      else Returned briefing
    else Returned briefing
  else Returned briefing.

Definition add_stocks (briefing : pystr) (stocks_info : list pystr) : pystr :=
  fold_left
    (fun b stock =>
       let stock := if contains stock (py "C2025년")
                    then replace stock (py "C2025년") (py "2025년") else stock in
       b ++ nl ++ nl ++ stock)
    stocks_info briefing.

Definition add_news (briefing : pystr) (news_items : list pystr) : pystr :=
  match news_items with
  | [] => briefing
  | _ => fold_left (fun b news => b ++ nl ++ nl ++ news) news_items
                   (briefing ++ nl ++ nl ++ related_news)
  end.

Definition add_links (briefing : pystr) (news_items news_links : list pystr)
  : pystr :=
  match news_links with
  | [] => briefing
  | _ =>
    let briefing :=
      if negb (contains briefing related_news)
      then briefing ++ nl ++ nl ++ py "관련 뉴스 링크:"
      else match news_items with
           | [] => briefing ++ nl ++ nl ++ py "관련 뉴스 링크:"
           | _ => briefing ++ nl ++ nl ++ py "뉴스 링크:"
           end in
    fold_left (fun b link => b ++ nl ++ link) (firstn 3 news_links) briefing
  end.

(** Lines 183-419: the briefing built from the container text. *)
Definition briefing_from_container (pg : page) (ticker text : pystr)
  : outcome (option pystr) :=
  briefing_text <- cut_at_marker markers text ;;
  let news_links := extract_news_links pg ticker in
  let '(stocks_info, news_items) := process_items (stock_items pg) in
  if truthy briefing_text then
    let briefing_lines :=
      fix_lone_heading pg ticker
        (briefing_lines_of (split briefing_text (py ". "))) in
    let briefing := join nl briefing_lines in
    let briefing :=
      if contains briefing daily_briefing_2025
      then replace briefing daily_briefing_2025 (daily_briefing ++ nl ++ py "2025년")
      else briefing in
    briefing <- fix_news ticker briefing ;;
    let briefing := add_stocks briefing stocks_info in
    let briefing := add_news briefing news_items in
    Returned (Some (add_links briefing news_items news_links))
  else Returned None.

Definition str_of_nat (n : nat) : pystr :=
  py (DecimalString.NilEmpty.string_of_uint (Nat.to_uint n)).

(** Lines 421-427, the numbered paragraphs starting at [i]. *)
Fixpoint numbered (i : nat) (ps : list pystr) : pystr :=
  match ps with
  | [] => []
  | p :: rest => nl ++ str_of_nat i ++ py ". " ++ p ++ numbered (S i) rest
  end.

Definition briefing_from_section (sec : section_obs) : pystr :=
  match paragraphs sec with
  | [] => strip (section_text sec)
  | ps => numbered 1 ps
  end.

(** The body of the [try] of [get_zum_briefing] (lines 97-438). *)
Definition get_zum_briefing_body (pg : page) (ticker : pystr) : outcome pystr :=
  driver_get pg ;;;
  wait_body pg ;;;
  page_source pg ;;;
  save_html pg ;;;
  briefing_section <-
    (match heading pg with
     | NoHeading => Returned None
     | HeadingNoDiv =>
         Raised (py "'NoneType' object has no attribute 'find_parent'")
     | HeadingOneDiv => Returned None
     | HeadingIn sec => Returned (Some sec)
     end) ;;
  briefing <-
    (match briefing_section with
     | None =>
       alt <- alt_briefing pg ticker ;;
       match alt with
       | Some text => briefing_from_container pg ticker text
       | None => Returned None
       end
     | Some sec => Returned (Some (briefing_from_section sec))
     end) ;;
  match briefing with
  | Some b =>
    if truthy b then
      let b := if startswith b (ticker ++ py ":")
               then strip (replace_first b (ticker ++ py ":") [])
               else b in
      Returned (ticker ++ py ":" ++ nl ++ b)
    else Returned (ticker ++ py ": 브리핑 없음")
  | None => Returned (ticker ++ py ": 브리핑 없음")
  end.

Definition error_result (ticker e : pystr) : pystr :=
  ticker ++ py ": 오류 발생 - " ++ e.

(** [get_zum_briefing]: the body under [except Exception]. *)
Definition get_zum_briefing (pg : page) (ticker : pystr) : outcome pystr :=
  try_except (get_zum_briefing_body pg ticker)
             (fun e => Returned (error_result ticker e)).

(** *** Time, as a timeout sees it

    The loop runs on one thread.  The Selenium calls, the parsing and the
    file write block it; control goes back to the event loop only where a
    coroutine is suspended, and the only awaits that suspend are
    [asyncio.sleep] calls.  A timer of [asyncio.wait_for] is served only
    then. *)

Inductive segment :=
| Blocking (seconds : nat)    (* the thread is busy *)
| Sleeping (seconds : nat).   (* the coroutine is suspended in a sleep *)

Definition timeline := list segment.

Definition seconds_in (g : segment) : nat :=
  match g with Blocking n => n | Sleeping n => n end.

(** The time a timeline takes when nothing cuts it short. *)
Definition span (tl : timeline) : nat := list_sum (map seconds_in tl).

(** The timer of [asyncio.wait_for(coro, timeout)], [elapsed] seconds
    into the wait: the time at which it takes effect, if it does.  It
    does so in the first sleep that is not over before the timer is due:
    when the sleep begins if the timer is due by then, when it falls due
    otherwise. *)
Fixpoint timer_fires (tl : timeline) (elapsed timeout : nat) : option nat :=
  match tl with
  | [] => None
  | Blocking n :: rest => timer_fires rest (elapsed + n) timeout
  | Sleeping n :: rest =>
    if timeout <=? elapsed + n then Some (Nat.max elapsed timeout)
    else timer_fires rest (elapsed + n) timeout
  end.

(** What has run of a timeline when the timer takes effect. *)
Fixpoint until_timer (tl : timeline) (elapsed timeout : nat) : timeline :=
  match tl with
  | [] => []
  | Blocking n :: rest => Blocking n :: until_timer rest (elapsed + n) timeout
  | Sleeping n :: rest =>
    if timeout <=? elapsed + n
    then [Sleeping (Nat.max elapsed timeout - elapsed)]
    else Sleeping n :: until_timer rest (elapsed + n) timeout
  end.

(** [asyncio.wait_for], seen from its caller. *)
Inductive waited (A : Type) : Type :=
| Completed (o : outcome A)
| TimeoutError.

Arguments Completed {A} o.
Arguments TimeoutError {A}.

(** [asyncio.wait_for(coro, timeout)] on a coroutine with timeline [tl]
    and outcome [o]: what the caller gets, and after how many seconds. *)
Definition wait_for {A} (tl : timeline) (o : outcome A) (timeout : nat)
  : waited A * nat :=
  match timer_fires tl 0 timeout with
  | Some t => (TimeoutError, t)
  | None => (Completed o, span tl)
  end.

(** *** The sequential loop over tickers ([scrape_all_tickers]) *)

(** The source site as one run sees it: the page each ticker renders to,
    the seconds the blocking calls take before the settle sleep of
    [get_zum_briefing] ([driver.get], the wait for the body), and the
    seconds the blocking work takes after it (page source, snapshot,
    parsing, link scripts). *)
Record site := {
  page_of : pystr -> page;
  load_seconds : pystr -> nat;
  parse_seconds : pystr -> nat
}.

(** Lines 105-107. *)
Definition wait_time (ticker : pystr) : nat :=
  let wait_time := if mem ticker [py "BLK"; py "IVZ"] then 5 else 2 in
  if eqb ticker (py "IGV") then 3 else wait_time.

(** The timeline of [get_zum_briefing(ticker)]: the settle sleep on line
    109 is its only await, reached when the page is opened and its body
    shows up; when one of the two raises, the handler returns at once. *)
Definition briefing_timeline (s : site) (ticker : pystr) : timeline :=
  match driver_get (page_of s ticker), wait_body (page_of s ticker) with
  | Returned _, Returned _ =>
      [Blocking (load_seconds s ticker); Sleeping (wait_time ticker);
       Blocking (parse_seconds s ticker)]
  | _, _ => [Blocking (load_seconds s ticker)]
  end.

(** The seconds [get_zum_briefing(ticker)] takes when left to run. *)
Definition seconds_of (s : site) (ticker : pystr) : nat :=
  span (briefing_timeline s ticker).

Definition per_ticker_timeout : nat := 30.
Definition pacing : nat := 2.

Definition timeout_notice (ticker fund : pystr) : pystr :=
  ticker ++ py ":" ++ nl ++ daily_briefing ++ nl ++ nl ++ fund
    ++ py "에 대한 브리핑을 가져오는 데 시간이 초과되었습니다. 수동으로 확인해주세요: https://invest.zum.com/etf/"
    ++ ticker ++ py "/".

(** The fallback appended when the wait on [IGV] or [SOXL] times out. *)
Definition timeout_fallback (ticker : pystr) : list pystr :=
  if eqb ticker (py "IGV")
  then [timeout_notice ticker (py "ISHARES TRUST EXPANDED TECH-SOFTWARE SECTOR ETF")]
  else if eqb ticker (py "SOXL")
  then [timeout_notice ticker
          (py "DIREXION SHARES ETF TRUST DAILY SEMICONDUCTOR BULL 3X SHS")]
  else [].

(** One turn of the loop (lines 456-486): the results it appends, each
    with the seconds into the turn at which it is appended, and the
    timeline of the turn. *)
Definition turn (s : site) (ticker : pystr)
  : list (nat * pystr) * timeline :=
  let call := get_zum_briefing (page_of s ticker) ticker in
  let running := briefing_timeline s ticker in
  if mem ticker [py "IGV"; py "SOXL"] then
    match wait_for running call per_ticker_timeout with
    | (Completed (Returned result), t) =>
        ([(t, result)], running ++ [Sleeping pacing])
    | (TimeoutError, t) =>
        (map (pair t) (timeout_fallback ticker),
         until_timer running 0 per_ticker_timeout ++ [Sleeping pacing])
    | (Completed (Raised e), t) =>
        ([(t, error_result ticker e)], running)
    end
  else
    match call with
    | Returned result =>
        ([(span running, result)], running ++ [Sleeping pacing])
    | Raised e => ([(span running, error_result ticker e)], running)
    end.

(** The turn entered at time [clock]: the results with the time of their
    [append], and the time at which the turn ends. *)
Definition scrape_ticker (s : site) (clock : nat) (ticker : pystr)
  : list (nat * pystr) * nat :=
  let '(appended, tl) := turn s ticker in
  (map (fun e => (clock + fst e, snd e)) appended, clock + span tl).

Fixpoint scrape_from (s : site) (clock : nat) (tickers : list pystr)
  : list (nat * pystr) * nat :=
  match tickers with
  | [] => ([], clock)
  | ticker :: rest =>
    let '(appended, clock') := scrape_ticker s clock ticker in
    let '(later, finish) := scrape_from s clock' rest in
    (appended ++ later, finish)
  end.

(** [scrape_all_tickers]: the list it returns and the time it takes. *)
Definition scrape_all_tickers (s : site) (tickers : list pystr)
  : list pystr * nat :=
  let '(trace, finish) := scrape_from s 0 tickers in (map snd trace, finish).

(** The timeline of [scrape_all_tickers]: one turn after the other. *)
Definition loop_timeline (s : site) (tickers : list pystr) : timeline :=
  flat_map (fun ticker => snd (turn s ticker)) tickers.

(** The local [results] of [scrape_all_tickers] as it stands [deadline]
    seconds into the call. *)
Definition results_at (s : site) (tickers : list pystr) (deadline : nat)
  : list pystr :=
  map snd (filter (fun e => fst e <=? deadline) (fst (scrape_from s 0 tickers))).

End Scraper.

Import Scraper.

(* ================================================================== *)
(** ** telegram_sender.py *)
(* ================================================================== *)

Module TelegramSender.

(** *** Links of a briefing ([send_html_content], lines 157-192) *)

(** Lines 168-189, on a [href] that mentions [docid=] or [doctype=news]. *)
Definition complete_news_href (ticker href : pystr) : pystr :=
  let href := if negb (startswith href (py "http"))
              then base_url ticker ++ href else href in
  let href := if negb (contains href (py "doctype=news"))
              then if contains href (py "?")
                   then href ++ py "&doctype=news"
                   else href ++ py "?doctype=news"
              else href in
  let href := if negb (contains href (py "docid="))
              then href ++ py "&docid=5384592" else href in
  let href := if negb (contains href (py "isdomestic="))
              then href ++ py "&isdomestic=false" else href in
  if negb (contains href (py "istrending="))
  then href ++ py "&istrending=false" else href.

(** The URL kept for one anchor, or [None] when the anchor is skipped
    ([continue]) or is not an [http] URL in the end. *)
Definition normalize_href (ticker href : pystr) : option pystr :=
  let rooted :=
    if startswith href (py "/") then Some (origin ++ href)
    else if startswith href (py "#") || startswith href (py "javascript:")
         then None
         else Some href in
  match rooted with
  | None => None
  | Some href =>
    let href := if contains href (py "docid=") || contains href (py "doctype=news")
                then complete_news_href ticker href else href in
    if startswith href (py "http") then Some href else None
  end.

(** *** Chunks ([send_html_content], lines 250-278) *)

Definition MAX_LENGTH : nat := 3000.

(** The [while remaining_text:] loop, cutting [n] characters a turn. *)
Fixpoint split_rest (fuel n : nat) (remaining_text : pystr)
    (messages : list pystr) : option (list pystr) :=
  match remaining_text with
  | [] => Some messages
  | _ :: _ =>
    match fuel with
    | O => None
    | S fuel' =>
      let chunk := slice_to n remaining_text in
      split_rest fuel' n (slice_from n remaining_text) (messages ++ [chunk])
    end
  end.

(** [messages] once the loop is left; [None] if it is not left within a
    number of turns equal to the length of the text. *)
Definition split_message_by (n : nat) (full_message : pystr)
  : option (list pystr) :=
  let first_chunk := slice_to n full_message in
  split_rest (List.length full_message) n (slice_from n full_message)
             [first_chunk].

Definition split_message : pystr -> option (list pystr) :=
  split_message_by MAX_LENGTH.

Definition continuation : pystr := py "(계속) ".

(** What is handed to [send_message], in order: every message after the
    first one with the continuation marker in front. *)
Definition payloads (messages : list pystr) : list pystr :=
  match messages with
  | [] => []
  | first :: rest => first :: map (app continuation) rest
  end.

Definition sent_chunks (full_message : pystr) : option (list pystr) :=
  option_map payloads (split_message full_message).

(** The header line put in front of the body. *)
Definition header (ticker current_date : pystr) : pystr :=
  py "📈 <b>" ++ ticker ++ py " 데일리 브리핑</b> (" ++ current_date ++ py ")"
    ++ nl ++ nl.

End TelegramSender.

(* ================================================================== *)
(** ** main.py and scheduler.py *)
(* ================================================================== *)

(** How one run of the batch ends. *)
Inductive batch :=
| Scraped (results : list pystr)   (* sent one by one with [send_html_content] *)
| TimedOut (results : list pystr)  (* fallbacks, sent with [send_message] *)
| Failed.                          (* nothing to send *)

Definition aggregate_timeout : nat := 120.

(** [(ticker, html_content)] as recovered from one result (lines 72-73). *)
Definition delivery (result : pystr) : outcome (pystr * pystr) :=
  head <- item_at (split result (py ":")) 0 ;;
  let ticker := strip head in
  Returned (ticker, replace result (ticker ++ py ":") []).

Module Main.

Definition default_order : list pystr :=
  [py "IGV"; py "SOXL"; py "BLK"; py "IVZ"; py "BRKU"].

(** [xs.index(x)], or [None] where Python raises [ValueError]. *)
Fixpoint index_of (x : pystr) (xs : list pystr) : option nat :=
  match xs with
  | [] => None
  | y :: xs' => if eqb y x then Some 0 else option_map S (index_of x xs')
  end.

(** The [key] of line 51. *)
Definition sort_key (x : pystr) : nat :=
  if mem x default_order
  then match index_of x default_order with
       | Some i => i
       | None => List.length default_order
       end
  else List.length default_order.

(** [sorted(xs, key=key)]: a stable sort, here by insertion from the
    right; an element goes in front of the first one whose key is not
    smaller. *)
Fixpoint insert_by (key : pystr -> nat) (x : pystr) (xs : list pystr)
  : list pystr :=
  match xs with
  | [] => [x]
  | y :: xs' => if key x <=? key y then x :: xs else y :: insert_by key x xs'
  end.

Definition sorted (xs : list pystr) (key : pystr -> nat) : list pystr :=
  fold_right (insert_by key) [] xs.

(** Lines 46-51. *)
Definition ordered_tickers (tickers : option (list pystr)) : list pystr :=
  match tickers with
  | None => default_order
  | Some ts => sorted ts sort_key
  end.

(** Line 98. *)
Definition fallback (ticker : pystr) : pystr :=
  ticker ++ py ":" ++ nl ++ daily_briefing ++ nl ++ nl
    ++ py "시간 초과로 인해 브리핑을 가져오지 못했습니다. 수동으로 확인해주세요: https://invest.zum.com/"
    ++ (if mem ticker [py "IGV"; py "SOXL"; py "BRKU"] then py "etf" else py "stock")
    ++ py "/" ++ ticker ++ py "/".

(** [run_scraper]: [new_scraper] is the outcome of [ETFScraper()]. *)
Definition run_scraper (new_scraper : outcome unit) (s : site)
    (tickers : option (list pystr)) : batch :=
  let tickers := ordered_tickers tickers in
  match new_scraper with
  | Raised _ => Failed
  | Returned _ =>
    let '(results, seconds) := scrape_all_tickers s tickers in
    match wait_for (loop_timeline s tickers) (Returned results)
                   aggregate_timeout with
    | (Completed (Returned results), _) => Scraped results
    | (Completed (Raised _), _) => Failed
    | (TimeoutError, _) => TimedOut (map fallback tickers)
    end
  end.

End Main.

Module Scheduler.

(** [config.TICKERS]. *)
Definition TICKERS : list pystr :=
  [py "IGV"; py "SOXL"; py "BLK"; py "IVZ"; py "BRKU"].

(** [self.tickers = tickers or TICKERS]. *)
Definition init_tickers (tickers : option (list pystr)) : list pystr :=
  match tickers with
  | Some ((_ :: _) as ts) => ts
  | _ => TICKERS
  end.

(** Lines 97-99. *)
Definition fallback (ticker : pystr) : pystr :=
  let is_etf := mem ticker [py "IGV"; py "SOXL"; py "BRKU"] in
  let ticker_type := if is_etf then py "etf" else py "stock" in
  ticker ++ py ":" ++ nl ++ daily_briefing ++ nl ++ nl
    ++ py "시간 초과로 인해 브리핑을 가져오지 못했습니다. 수동으로 확인해주세요: https://invest.zum.com/"
    ++ ticker_type ++ py "/" ++ ticker ++ py "/".

Definition run_scraper (new_scraper : outcome unit) (s : site)
    (self_tickers : list pystr) : batch :=
  match new_scraper with
  | Raised _ => Failed
  | Returned _ =>
    let '(results, seconds) := scrape_all_tickers s self_tickers in
    match wait_for (loop_timeline s self_tickers) (Returned results)
                   aggregate_timeout with
    | (Completed (Returned results), _) => Scraped results
    | (Completed (Raised _), _) => Failed
    | (TimeoutError, _) => TimedOut (map fallback self_tickers)
    end
  end.

End Scheduler.

(* ================================================================== *)
(** ** Concrete pages and sites *)
(* ================================================================== *)

Module Scenario.

(** A page that loads and holds [text] under the briefing heading. *)
Definition plain_page (text : pystr) : page := {|
  driver_get := Returned tt;
  wait_body := Returned tt;
  page_source := Returned tt;
  save_html := Returned tt;
  heading := HeadingIn {| paragraphs := []; section_text := text |};
  briefing_inner := None;
  briefing_inner_stock := None;
  price_div := None;
  change_div := None;
  marker_div := None;
  stock_items := [];
  brku_price := None;
  script_links := Returned [];
  fallback_links := Returned [];
  set_order := fun links => links;
  today := py "2025년 03월 28일";
  yesterday := py "2025년 03월 27일"
|}.

(** A page without the heading whose briefing sits in the ETF container,
    and on which running the link script fails. *)
Definition script_failure_page : page := {|
  driver_get := Returned tt;
  wait_body := Returned tt;
  page_source := Returned tt;
  save_html := Returned tt;
  heading := NoHeading;
  briefing_inner := Some (py "소프트웨어 업종이 강세를 보였습니다.");
  briefing_inner_stock := None;
  price_div := None;
  change_div := None;
  marker_div := None;
  stock_items := [];
  brku_price := None;
  script_links := Raised (py "javascript error: document is not defined");
  fallback_links := Returned [];
  set_order := fun links => links;
  today := py "2025년 03월 28일";
  yesterday := py "2025년 03월 27일"
|}.

(** A page whose briefing heading has no enclosing [div]. *)
Definition bare_heading_page : page := {|
  driver_get := Returned tt;
  wait_body := Returned tt;
  page_source := Returned tt;
  save_html := Returned tt;
  heading := HeadingNoDiv;
  briefing_inner := None;
  briefing_inner_stock := None;
  price_div := None;
  change_div := None;
  marker_div := None;
  stock_items := [];
  brku_price := None;
  script_links := Returned [];
  fallback_links := Returned [];
  set_order := fun links => links;
  today := py "2025년 03월 28일";
  yesterday := py "2025년 03월 27일"
|}.

(** Every page holds the same short briefing.  [BLK] takes 200 seconds,
    190 of them to load; every other ticker takes 10 seconds, 3 of them
    to load. *)
Definition slow_blk_site : site := {|
  page_of := fun _ => plain_page (py "오늘의 브리핑");
  load_seconds := fun ticker => if eqb ticker (py "BLK") then 190 else 3;
  parse_seconds :=
    fun ticker => if eqb ticker (py "BLK") then 5 else 7 - wait_time ticker
|}.

(** Every ticker takes 10 seconds, 3 of them to load. *)
Definition quick_site : site := {|
  page_of := fun _ => plain_page (py "오늘의 브리핑");
  load_seconds := fun _ => 3;
  parse_seconds := fun ticker => 7 - wait_time ticker
|}.

(** [IGV] takes 45 seconds to load; every other ticker takes 10 seconds,
    3 of them to load. *)
Definition slow_igv_site : site := {|
  page_of := fun _ => plain_page (py "오늘의 브리핑");
  load_seconds := fun ticker => if eqb ticker (py "IGV") then 45 else 3;
  parse_seconds := fun ticker => 7 - wait_time ticker
|}.

(** [IGV] loads in 5 seconds and then takes 40 seconds to parse. *)
Definition slow_parse_site : site := {|
  page_of := fun _ => plain_page (py "오늘의 브리핑");
  load_seconds := fun ticker => if eqb ticker (py "IGV") then 5 else 3;
  parse_seconds :=
    fun ticker => if eqb ticker (py "IGV") then 40 else 7 - wait_time ticker
|}.

(** Every ticker takes 22 seconds, so that five turns take 120. *)
Definition even_site : site := {|
  page_of := fun _ => plain_page (py "오늘의 브리핑");
  load_seconds := fun _ => 10;
  parse_seconds := fun ticker => 12 - wait_time ticker
|}.

(** Stock items as the site words them. *)
Definition rose_item : stock_item := {|
  stock_briefing :=
    Some (py "2025년 03월 28일 브로드컴, 주식이 1.5% 상승하여 878.42달러에 마감했습니다.");
  stock_info := Some (py "브로드컴 (AVGO)");
  article := None
|}.

Definition fell_item : stock_item := {|
  stock_briefing :=
    Some (py "2025년 03월 28일 인텔, 주식이 2.0% 하락하여 45.10달러에 마감했습니다.");
  stock_info := Some (py "인텔 (INTC)");
  article := None
|}.

(** The same sentence with the directional phrase after a second comma,
    which sends the parser to its second attempt. *)
Definition rose_item_late : stock_item := {|
  stock_briefing :=
    Some (py "2025년 03월 28일 브로드컴, 반도체 업종, 주식이 1.5% 상승하여 878.42달러에 마감했습니다.");
  stock_info := Some (py "브로드컴 (AVGO)");
  article := None
|}.

(** An item whose sentence names no price. *)
Definition partial_item : stock_item := {|
  stock_briefing := Some (py "2025년 03월 28일 인텔, 주식이 보합으로 마감했습니다.");
  stock_info := None;
  article := None
|}.

(** A message of 6000 characters after its header. *)
Definition long_message : pystr :=
  TelegramSender.header (py "IGV") (py "2025년 03월 28일") ++ repeat 97%N (2 * 3000).

(** The page as it is when neither script finds a link. *)
Definition without_links (pg : page) : page := {|
  driver_get := driver_get pg;
  wait_body := wait_body pg;
  page_source := page_source pg;
  save_html := save_html pg;
  heading := heading pg;
  briefing_inner := briefing_inner pg;
  briefing_inner_stock := briefing_inner_stock pg;
  price_div := price_div pg;
  change_div := change_div pg;
  marker_div := marker_div pg;
  stock_items := stock_items pg;
  brku_price := brku_price pg;
  script_links := Returned [];
  fallback_links := Returned [];
  set_order := fun _ => [];
  today := today pg;
  yesterday := yesterday pg
|}.

End Scenario.

(** The shape of a news URL as the sender leaves it. *)
Module LinkShape.

(** One parameter step of the sender: [h + suffix] unless [h] mentions
    [key] already. *)
Definition ensure (key suffix h : pystr) : pystr :=
  if negb (contains h key) then h ++ suffix else h.

(** The first step of [normalize_link]: the link made absolute. *)
Definition rooted (ticker link : pystr) : pystr :=
  if negb (startswith link (py "http"))
  then if startswith link (py "/") then origin ++ link
       else base_url ticker ++ link
  else link.

(** The first two steps of the sender on a news link: the link made
    absolute, then given its article type. *)
Definition absolute (ticker href : pystr) : pystr :=
  if negb (startswith href (py "http")) then base_url ticker ++ href else href.

Definition with_doctype (h : pystr) : pystr :=
  if negb (contains h (py "doctype=news"))
  then if contains h (py "?") then h ++ py "&doctype=news"
       else h ++ py "?doctype=news"
  else h.

(** An absolute URL that carries the four query parameters. *)
Record complete (r : pystr) : Prop := {
  complete_http : startswith r (py "http") = true;
  complete_doctype : contains r (py "doctype=news") = true;
  complete_docid : contains r (py "docid=") = true;
  complete_isdomestic : contains r (py "isdomestic=") = true;
  complete_istrending : contains r (py "istrending=") = true
}.

End LinkShape.

(** The reader's side of chunking, following the words of the
    specification: the continuation marker is taken off every chunk but
    the first, and the pieces are joined. *)
Module Reader.

Import TelegramSender.

Definition strip_continuation_marker (chunk : pystr) : pystr :=
  if startswith chunk continuation
  then skipn (List.length continuation) chunk
  else chunk.

Definition reassemble (chunks : list pystr) : pystr :=
  match chunks with
  | [] => []
  | first :: rest => first ++ List.concat (map strip_continuation_marker rest)
  end.

End Reader.

(** The batch order in the words of the specification: the tickers of the
    canonical list in its order, then the tickers that are not in it, in
    the order in which they were submitted. *)
Module Canonical.

Definition canonical_order (tickers : list pystr) : list pystr :=
  flat_map (fun c => filter (eqb c) tickers) Main.default_order
    ++ filter (fun t => negb (mem t Main.default_order)) tickers.

(** The tickers of [ts] whose key is [k], in their order in [ts]. *)
Definition bucket (key : pystr -> nat) (ts : list pystr) (k : nat)
  : list pystr :=
  filter (fun t => key t =? k) ts.

End Canonical.

(** A link list that is too long for one message although it has one
    entry. *)
Module LongLinks.

Definition one_long_link : list pystr :=
  [py "<a href='https://invest.zum.com/etf/IGV/?docid=1'>"
     ++ repeat 97%N 4000 ++ py "</a>"].

End LongLinks.

(** More pages. *)
Module Pages.

Import Scenario.

(** A page on which the link script finds two links. *)
Definition linked_page : page := {|
  driver_get := Returned tt;
  wait_body := Returned tt;
  page_source := Returned tt;
  save_html := Returned tt;
  heading := NoHeading;
  briefing_inner := Some (py "소프트웨어 업종이 강세를 보였습니다.");
  briefing_inner_stock := None;
  price_div := None;
  change_div := None;
  marker_div := None;
  stock_items := [];
  brku_price := None;
  script_links := Returned [py "/etf/IGV/?docid=1"; py "news/2"];
  fallback_links := Returned [];
  set_order := fun links => rev links;
  today := py "2025년 03월 28일";
  yesterday := py "2025년 03월 27일"
|}.

(** A page whose body does not show up in time. *)
Definition wait_timeout_page : page := {|
  driver_get := Returned tt;
  wait_body := Raised (py "Message: timeout");
  page_source := Returned tt;
  save_html := Returned tt;
  heading := NoHeading;
  briefing_inner := Some (py "소프트웨어 업종이 강세를 보였습니다.");
  briefing_inner_stock := None;
  price_div := None;
  change_div := None;
  marker_div := None;
  stock_items := [];
  brku_price := None;
  script_links := Returned [];
  fallback_links := Returned [];
  set_order := fun links => links;
  today := py "2025년 03월 28일";
  yesterday := py "2025년 03월 27일"
|}.

(** A page that loads and holds none of the containers. *)
Definition empty_page : page := {|
  driver_get := Returned tt;
  wait_body := Returned tt;
  page_source := Returned tt;
  save_html := Returned tt;
  heading := HeadingOneDiv;
  briefing_inner := None;
  briefing_inner_stock := None;
  price_div := Some (py "$100.00");
  change_div := None;
  marker_div := None;
  stock_items := [];
  brku_price := None;
  script_links := Returned [];
  fallback_links := Returned [];
  set_order := fun links => links;
  today := py "2025년 03월 28일";
  yesterday := py "2025년 03월 27일"
|}.

(** A page with the briefing in two paragraphs under the heading. *)
Definition two_paragraphs : section_obs := {|
  paragraphs := [py "소프트웨어 업종이 강세를 보였습니다."; py "거래량이 늘었습니다."];
  section_text := py "데일리 브리핑"
|}.

Definition section_page (sec : section_obs) : page := {|
  driver_get := Returned tt;
  wait_body := Returned tt;
  page_source := Returned tt;
  save_html := Returned tt;
  heading := HeadingIn sec;
  briefing_inner := None;
  briefing_inner_stock := None;
  price_div := None;
  change_div := None;
  marker_div := None;
  stock_items := [];
  brku_price := None;
  script_links := Returned [];
  fallback_links := Returned [];
  set_order := fun links => links;
  today := py "2025년 03월 28일";
  yesterday := py "2025년 03월 27일"
|}.

(** A section whose text repeats the label of the ticker. *)
Definition labelled : section_obs := {|
  paragraphs := [];
  section_text := py "  IGV: 소프트웨어 강세. IGV: 거래량 증가  "
|}.

End Pages.

(** The time the loop may take at most on a list of tickers: what each
    extraction takes, and the pacing delay after it. *)
Module Budget.

Definition budget (s : site) (tickers : list pystr) : nat :=
  list_sum (map (fun t => seconds_of s t + pacing) tickers).

End Budget.

(* ================================================================== *)
(** ** telegram_sender.py: the text of a delivery *)
(* ================================================================== *)

Module SenderText.

(** *** [send_message]: the plain-text retry (line 91) *)

(** [re.sub(r'<[^>]*>', '', s)], scanning left to right.  [tag] holds,
    reversed, the text read since an unclosed [<]; it is dropped at the
    next [>] and put back if the text ends before one. *)
Fixpoint strip_tags_from (s : pystr) (tag : option pystr) : pystr :=
  match s with
  | [] => match tag with Some opened => rev opened | None => [] end
  | c :: s' =>
    match tag with
    | None =>
      if (c =? 60)%N then strip_tags_from s' (Some [c])
      else c :: strip_tags_from s' None
    | Some opened =>
      if (c =? 62)%N then strip_tags_from s' None
      else strip_tags_from s' (Some (c :: opened))
    end
  end.

Definition strip_tags (message_text : pystr) : pystr :=
  strip_tags_from message_text None.

(** *** [send_html_content]: link texts and the link message *)

(** Lines 205-206. *)
Definition shorten_link_text (link_text : pystr) : pystr :=
  if 100 <? List.length link_text
  then slice_to 97 link_text ++ py "..."
  else link_text.

(** The numbered entries [f"{i+1}. {link}\n\n"] for [enumerate(links)],
    counting from [i]. *)
Fixpoint link_entries (i : nat) (links : list pystr) : pystr :=
  match links with
  | [] => []
  | link :: rest =>
      str_of_nat (S i) ++ py ". " ++ link ++ nl ++ nl ++ link_entries (S i) rest
  end.

Definition links_header (ticker : pystr) : pystr :=
  py "🔗 <b>" ++ ticker ++ py " 뉴스 링크</b>" ++ nl ++ nl.

Definition links_header_latest (ticker : pystr) : pystr :=
  py "🔗 <b>" ++ ticker ++ py " 뉴스 링크</b> (최신 5개)" ++ nl ++ nl.

Definition links_limit : nat := 4000.

(** Lines 281-293: the message sent after the chunks, if any link was
    collected. *)
Definition links_message (ticker : pystr) (links : list pystr)
  : option pystr :=
  match links with
  | [] => None
  | _ =>
    let links_text := links_header ticker ++ link_entries 0 links in
    if links_limit <? List.length links_text
    then Some (links_header_latest ticker ++ link_entries 0 (firstn 5 links))
    else Some links_text
  end.

(** *** [send_html_content]: cleaning the body (lines 222, 229-245) *)

Definition flush_run (run : pystr) : pystr :=
  match run with
  | [] => []
  | [w] => [w]
  | _ => [32%N]
  end.

(** [re.sub(r'\s{2,}', ' ', s)]: [run] is the run of whitespace being
    read; a run of one character stays, a longer one becomes a space. *)
Fixpoint collapse_from (s : pystr) (run : pystr) : pystr :=
  match s with
  | [] => flush_run run
  | c :: s' =>
    if is_space c then collapse_from s' (c :: run)
    else flush_run run ++ c :: collapse_from s' []
  end.

Definition collapse_spaces (body_text : pystr) : pystr :=
  collapse_from body_text [].

(** [[a-zA-Z0-9_-]]. *)
Definition is_name_char (c : N) : bool :=
  ((97 <=? c) && (c <=? 122) || (65 <=? c) && (c <=? 90)
   || (48 <=? c) && (c <=? 57) || (c =? 95) || (c =? 45))%N.

Fixpoint drop_while (p : N -> bool) (s : pystr) : pystr :=
  match s with
  | c :: s' => if p c then drop_while p s' else s
  | [] => []
  end.

(** [re.match(r'^[.#]?[a-zA-Z0-9_-]+\s*\{', line)]. *)
Definition starts_css_rule (line : pystr) : bool :=
  let after_mark :=
    match line with
    | c :: r => if ((c =? 46) || (c =? 35))%N then r else line
    | [] => []
    end in
  match after_mark with
  | c :: _ =>
    if is_name_char c then
      match drop_while is_space (drop_while is_name_char after_mark) with
      | d :: _ => (d =? 123)%N
      | [] => false
      end
    else false
  | [] => false
  end.

(** One turn of the loop on lines 231-242: the line that is kept. *)
Definition clean_line (line : pystr) : option pystr :=
  let line := strip line in
  if negb (truthy line) then None
  else if starts_css_rule line
          || (contains line (py "{") && contains line (py "}"))
  then None
  else if (3 <? List.length line)
          && negb (startswith line (py ".") || startswith line (py "#")
                   || startswith line (py "{"))
  then Some line
  else None.

Definition clean_lines (body_text : pystr) : list pystr :=
  flat_map (fun line => opt_list (clean_line line)) (split body_text nl).

(** Line 245. *)
Definition clean_body (body_text : pystr) : pystr :=
  join nl (clean_lines body_text).

End SenderText.

(* ================================================================== *)
(** ** telegram_sender.py: the text drawn on an image *)
(* ================================================================== *)

Module TextImage.

(** A Hangul syllable, [0xAC00 <= ord(c) <= 0xD7A3]. *)
Definition is_hangul (c : N) : bool := ((44032 <=? c) && (c <=? 55203))%N.

(** Lines 685-692: a line with Hangul keeps its ASCII characters and has
    a space for every other one. *)
Definition filter_line (line : pystr) : pystr :=
  if existsb is_hangul line
  then map (fun c => if (c <? 128)%N then c else 32%N) line
  else line.

(** Lines 684-694. *)
Definition display_text (cleaned_content : pystr) : pystr :=
  join nl (map filter_line (split cleaned_content nl)).

(** Lines 640-642. *)
Definition image_height (cleaned_content : pystr) : nat :=
  Nat.max 500 (100 + List.length (split cleaned_content nl) * 25).

End TextImage.

(** Shapes of texts that the cleaning steps establish. *)
Module TextShape.

(** Two white-space characters next to each other somewhere in [s]. *)
Fixpoint has_space_pair (s : pystr) : bool :=
  match s with
  | c :: ((d :: _) as s') => (is_space c && is_space d) || has_space_pair s'
  | _ => false
  end.

(** The first character of [s], if there is one, is not white space. *)
Definition starts_clean (s : pystr) : bool :=
  match s with
  | c :: _ => negb (is_space c)
  | [] => true
  end.

End TextShape.

(* ================================================================== *)
(** ** The snapshot of a page: written by scraper.py, listed by app.py *)
(* ================================================================== *)

Module Snapshot.

(** [scraper.py], lines 113-117: the file the page source is written to. *)
Definition output_dir : pystr := py "html_outputs".

Definition snapshot_path (ticker date_str : pystr) : pystr :=
  output_dir ++ py "/test_" ++ ticker ++ py "_" ++ date_str ++ py ".html".

(** [os.path.basename]: what follows the last slash. *)
Definition basename (file_path : pystr) : pystr :=
  last (split file_path (py "/")) [].

(** [app.py], lines 60-61: the date read off the name of a snapshot. *)
Definition date_of_file (file_path : pystr) : pystr :=
  let filename := basename file_path in
  replace (last (split filename (py "_")) []) (py ".html") [].

End Snapshot.

(* ================================================================== *)
(** ** Facts about Python strings *)
(* ================================================================== *)

Section StringFacts.

Lemma eqb_spec (a b : pystr) : reflect (a = b) (eqb a b).
Proof.
  revert b; induction a as [|x a IH]; intros [|y b]; simpl;
    try (constructor; congruence).
  destruct (N.eqb_spec x y) as [->|Hxy]; simpl.
  - destruct (IH b) as [->|Hab]; constructor; congruence.
  - constructor; congruence.
Qed.

Lemma eqb_refl (a : pystr) : eqb a a = true.
Proof. destruct (eqb_spec a a); congruence. Qed.

Lemma eqb_sym (a b : pystr) : eqb a b = eqb b a.
Proof.
  destruct (eqb_spec a b), (eqb_spec b a); congruence.
Qed.

Lemma startswith_prefix (p s : pystr) : startswith (p ++ s) p = true.
Proof.
  induction p as [|c p IH]; simpl; [reflexivity|].
  now rewrite N.eqb_refl.
Qed.

Lemma startswith_app (s t p : pystr) :
  startswith s p = true -> startswith (s ++ t) p = true.
Proof.
  revert s; induction p as [|c p IH]; intros s H; simpl in *; [reflexivity|].
  destruct s as [|d s]; simpl in *; [discriminate|].
  apply andb_true_iff in H as [-> H]; simpl; auto.
Qed.

Lemma contains_app_l (s t sub : pystr) :
  contains s sub = true -> contains (s ++ t) sub = true.
Proof.
  induction s as [|c s IH]; simpl; intros H.
  - rewrite orb_false_r in H. destruct sub; [|discriminate].
    destruct t; reflexivity.
  - apply orb_true_iff in H as [H|H]; apply orb_true_iff.
    + left. exact (startswith_app (c :: s) t sub H).
    + right; auto.
Qed.

Lemma contains_app_r (s t sub : pystr) :
  contains t sub = true -> contains (s ++ t) sub = true.
Proof.
  induction s as [|c s IH]; simpl; intros H; [exact H|].
  apply orb_true_iff; right; auto.
Qed.


(** A string that starts with [http] does not start with anything that
    begins with another character. *)
Lemma startswith_http_not (s p : pystr) (c : N) :
  startswith s (py "http") = true -> c <> 104%N ->
  startswith s (c :: p) = false.
Proof.
  intros H Hc. destruct s as [|d s]; [reflexivity|].
  change (py "http") with [104; 116; 116; 112]%N in H.
  cbn [startswith] in H.
  apply andb_true_iff in H as [H _]. apply N.eqb_eq in H. subst d.
  cbn [startswith]. destruct (N.eqb_spec c 104); [contradiction|reflexivity].
Qed.

End StringFacts.

(* ================================================================== *)
(** ** The extractor's boundary *)
(* ================================================================== *)

Section Extractor.

Variable pg : page.
Variable ticker : pystr.

Lemma colon_prefixed (rest : pystr) :
  startswith (ticker ++ py ":" ++ rest) (ticker ++ py ":") = true.
Proof. rewrite app_assoc. apply startswith_prefix. Qed.

Lemma no_briefing_prefixed :
  startswith (ticker ++ py ": 브리핑 없음") (ticker ++ py ":") = true.
Proof.
  replace (py ": 브리핑 없음") with (py ":" ++ py " 브리핑 없음")
    by (vm_compute; reflexivity).
  apply colon_prefixed.
Qed.

Lemma body_result_prefixed (r : pystr) :
  get_zum_briefing_body pg ticker = Returned r ->
  startswith r (ticker ++ py ":") = true.
Proof.
  unfold get_zum_briefing_body.
  destruct (driver_get pg); [|discriminate].
  destruct (wait_body pg); [|discriminate].
  destruct (page_source pg); [|discriminate].
  destruct (save_html pg); [|discriminate].
  cbn [bind].
  set (lookup := match heading pg with
                 | NoHeading => _ | HeadingNoDiv => _
                 | HeadingOneDiv => _ | HeadingIn sec => _ end).
  destruct lookup as [section|]; [|discriminate]. cbn [bind].
  match goal with
  | |- bind ?c _ = _ -> _ => destruct c as [[b|]|]; cbn [bind]
  end; try discriminate.
  - destruct (truthy b); intros [= <-];
      [apply colon_prefixed|apply no_briefing_prefixed].
  - intros [= <-]. apply no_briefing_prefixed.
Qed.

Lemma error_result_prefixed (e : pystr) :
  startswith (error_result ticker e) (ticker ++ py ":") = true.
Proof.
  unfold error_result.
  replace (py ": 오류 발생 - ") with (py ":" ++ py " 오류 발생 - ")
    by (vm_compute; reflexivity).
  rewrite <- app_assoc. apply colon_prefixed.
Qed.

Lemma get_zum_briefing_prefixed :
  exists r,
    get_zum_briefing pg ticker = Returned r /\
    startswith r (ticker ++ py ":") = true.
Proof.
  unfold get_zum_briefing, try_except.
  destruct (get_zum_briefing_body pg ticker) as [r|e] eqn:Hbody.
  - exists r; split; [reflexivity|]. now apply body_result_prefixed.
  - eexists; split; [reflexivity|]. apply error_result_prefixed.
Qed.

(** The first of the loading steps that fails ends the extraction. *)
Lemma load_failure_result (e : pystr) :
  (driver_get pg ;;; wait_body pg ;;; page_source pg ;;; save_html pg)
    = Raised e ->
  get_zum_briefing pg ticker = Returned (error_result ticker e).
Proof.
  unfold get_zum_briefing, get_zum_briefing_body, try_except.
  destruct (driver_get pg); cbn [bind]; [|now intros [= ->]].
  destruct (wait_body pg); cbn [bind]; [|now intros [= ->]].
  destruct (page_source pg); cbn [bind]; [|now intros [= ->]].
  destruct (save_html pg); cbn [bind]; [discriminate|now intros [= ->]].
Qed.

(** On a page that loads, a heading outside any [div] ends it too. *)
Lemma bare_heading_result :
  (driver_get pg ;;; wait_body pg ;;; page_source pg ;;; save_html pg)
    = Returned tt ->
  heading pg = HeadingNoDiv ->
  get_zum_briefing pg ticker
  = Returned (error_result ticker
                (py "'NoneType' object has no attribute 'find_parent'")).
Proof.
  unfold get_zum_briefing, get_zum_briefing_body, try_except.
  destruct (driver_get pg); cbn [bind]; [|discriminate].
  destruct (wait_body pg); cbn [bind]; [|discriminate].
  destruct (page_source pg); cbn [bind]; [|discriminate].
  destruct (save_html pg); cbn [bind]; [|discriminate].
  intros _ ->. reflexivity.
Qed.

(** A script that fails leaves the extraction without links. *)
Lemma failed_script_no_links (e : pystr) :
  script_links pg = Raised e \/
  (script_links pg = Returned [] /\ fallback_links pg = Raised e) ->
  extract_news_links pg ticker = [].
Proof.
  unfold extract_news_links.
  intros [->|[-> ->]]; reflexivity.
Qed.

(** The extraction reads the scripts through [extract_news_links] only. *)
Lemma links_only_through_extract :
  extract_news_links pg ticker = [] ->
  get_zum_briefing pg ticker
  = get_zum_briefing (Scenario.without_links pg) ticker.
Proof.
  intros Hlinks.
  unfold get_zum_briefing, get_zum_briefing_body, briefing_from_container.
  rewrite Hlinks.
  replace (extract_news_links (Scenario.without_links pg) ticker)
    with (@nil pystr) by reflexivity.
  reflexivity.
Qed.

End Extractor.

(** C10.  Whatever the page and however the extraction ends (a briefing,
    no briefing, or an exception caught at the boundary), the string
    [get_zum_briefing] returns begins with the ticker symbol followed by a
    colon. *)
Theorem result_begins_with_ticker (pg : page) (ticker : pystr) :
  exists r,
    get_zum_briefing pg ticker = Returned r /\
    startswith r (ticker ++ py ":") = true.
Proof. apply get_zum_briefing_prefixed. Qed.

(** C8, as the code has it.  [get_zum_briefing] never raises: the
    caller always receives a result for the ticker, which is what the
    body of the [try] returns or, when that body raises, the error text
    for the ticker with the message of the exception in it.  So a failure
    while the page is loaded (opening the URL, waiting for the body,
    reading the source, writing the snapshot) gives the error text with
    the message of the first step that failed, and so does, on a page
    that loads, a briefing heading outside any [div].  Not every internal
    failure does: when the link script fails, or finds nothing and the
    fallback script fails, [extract_news_links] handles the exception
    itself, and the result is the one the same page gives when the
    scripts find no link; the message of that exception is in no
    result. *)
Theorem extractor_never_raises (pg : page) (ticker : pystr) :
  (exists r,
     get_zum_briefing pg ticker = Returned r /\
     match get_zum_briefing_body pg ticker with
     | Returned r' => r = r'
     | Raised e => r = error_result ticker e
     end) /\
  (forall e,
     (driver_get pg ;;; wait_body pg ;;; page_source pg ;;; save_html pg)
       = Raised e ->
     get_zum_briefing pg ticker = Returned (error_result ticker e)) /\
  ((driver_get pg ;;; wait_body pg ;;; page_source pg ;;; save_html pg)
     = Returned tt ->
   heading pg = HeadingNoDiv ->
   get_zum_briefing pg ticker
   = Returned (error_result ticker
                 (py "'NoneType' object has no attribute 'find_parent'"))) /\
  (forall e,
     script_links pg = Raised e \/
     (script_links pg = Returned [] /\ fallback_links pg = Raised e) ->
     get_zum_briefing pg ticker
     = get_zum_briefing (Scenario.without_links pg) ticker).
Proof.
  split; [|split; [|split]].
  - unfold get_zum_briefing, try_except.
    destruct (get_zum_briefing_body pg ticker) as [r|e]; eauto.
  - apply load_failure_result.
  - apply bare_heading_result.
  - intros e H. apply links_only_through_extract.
    now apply (failed_script_no_links pg ticker e).
Qed.

(** The page without links that stands for the page whose script fails
    gives an ordinary briefing. *)
Example script_failure_without_links :
  get_zum_briefing (Scenario.without_links Scenario.script_failure_page)
    (py "IGV")
  = Returned (py "IGV:" ++ nl ++ py "소프트웨어 업종이 강세를 보였습니다.").
Proof. vm_compute. reflexivity. Qed.

(** A heading outside any [div] makes the lookup of the briefing section
    raise; the caller receives the error text. *)
Example bare_heading_is_error :
  get_zum_briefing Scenario.bare_heading_page (py "IGV")
  = Returned (py "IGV: 오류 발생 - 'NoneType' object has no attribute 'find_parent'").
Proof. vm_compute. reflexivity. Qed.

(** C8, as stated, fails: the link script raises on this page, the
    extractor handles it where it occurs, and the result is an ordinary
    briefing, not an error text. *)
Lemma script_failure_is_not_error :
  script_links Scenario.script_failure_page
    = Raised (py "javascript error: document is not defined") /\
  get_zum_briefing Scenario.script_failure_page (py "IGV")
    = Returned (py "IGV:" ++ nl ++ py "소프트웨어 업종이 강세를 보였습니다.") /\
  forall e, get_zum_briefing Scenario.script_failure_page (py "IGV")
            <> Returned (error_result (py "IGV") e).
Proof.
  split; [vm_compute; reflexivity|]. split; [vm_compute; reflexivity|].
  intros e H. vm_compute in H. discriminate H.
Qed.

(* ================================================================== *)
(** ** Constituent mentions *)
(* ================================================================== *)

Section Mentions.

Lemma stock_header_complete (m : mention) (h : pystr) :
  stock_header m = Some h ->
  exists p c,
    price m = Some p /\ change m = Some c /\
    truthy (name m) = true /\ truthy p = true /\ truthy c = true.
Proof.
  unfold stock_header.
  destruct (price m) as [p|]; [|discriminate].
  destruct (change m) as [c|]; [|discriminate].
  destruct (truthy (name m)) eqn:Hn; [|discriminate].
  destruct (truthy p) eqn:Hp; [|discriminate].
  destruct (truthy c) eqn:Hc; [|discriminate].
  intros _. exists p, c. auto.
Qed.

(** A mention that lacks its price or its change is dropped. *)
Lemma partial_mention_dropped (m : mention) :
  truthy_opt (price m) = false \/ truthy_opt (change m) = false ->
  stock_header m = None.
Proof.
  unfold stock_header.
  destruct (price m) as [p|], (change m) as [c|]; simpl; try reflexivity.
  intros [-> | ->]; [now rewrite andb_false_r|now rewrite andb_false_r].
Qed.

Lemma process_item_headers (st : list pystr * list pystr) (item : stock_item)
    (h : pystr) :
  In h (fst (process_item st item)) ->
  In h (fst st) \/
  exists m, parse_mention item = Returned (Some m) /\ stock_header m = Some h.
Proof.
  unfold process_item.
  destruct (parse_mention item) as [[m|]|e]; auto.
  cbn [fst]. intros H. apply in_app_or in H as [H|H]; auto.
  right. exists m. split; [reflexivity|].
  destruct (stock_header m) as [h'|]; simpl in H; [|contradiction].
  destruct H as [->|[]]. reflexivity.
Qed.

Lemma fold_process_headers (items : list stock_item) :
  forall (st : list pystr * list pystr) (h : pystr),
    In h (fst (fold_left process_item items st)) ->
    In h (fst st) \/
    exists item m,
      In item items /\ parse_mention item = Returned (Some m) /\
      stock_header m = Some h.
Proof.
  induction items as [|item items IH]; intros st h H; simpl in H; auto.
  apply IH in H as [H|(item' & m & Hin & Hp & Hh)].
  - apply process_item_headers in H as [H|(m & Hp & Hh)]; auto.
    right. exists item, m. simpl. auto.
  - right. exists item', m. simpl. auto.
Qed.

End Mentions.

(** C9.  Every constituent mention that the extractor emits (every header
    that reaches [stocks_info]) comes from an item whose name, price and
    change were all resolved: its price and its change are both present
    and non-empty.  An item that resolves only part of them adds no
    mention, and the loop goes on. *)
Theorem emitted_mention_has_price_and_change
    (items : list stock_item) (h : pystr) :
  In h (fst (process_items items)) ->
  exists item m p c,
    In item items /\
    parse_mention item = Returned (Some m) /\
    stock_header m = Some h /\
    price m = Some p /\ change m = Some c /\
    truthy (name m) = true /\ truthy p = true /\ truthy c = true.
Proof.
  unfold process_items. intros H.
  apply fold_process_headers in H as [[]|(item & m & Hin & Hp & Hh)].
  destruct (stock_header_complete m h Hh) as (p & c & H1 & H2 & H3 & H4 & H5).
  exists item, m, p, c. auto 10.
Qed.

(** An item without a price adds nothing and raises nothing. *)
Example partial_item_is_dropped :
  process_items [Scenario.partial_item; Scenario.rose_item]
  = process_items [Scenario.rose_item].
Proof. vm_compute. reflexivity. Qed.

Lemma emitted_mention_witness :
  exists item m p c,
    In item [Scenario.rose_item] /\
    parse_mention item = Returned (Some m) /\
    stock_header m
      = Some (nl ++ nl ++ py "━━━ 브로드컴 (AVGO) ━━━" ++ nl
                 ++ py "$878.42 (+주식이1.5%%)") /\
    price m = Some p /\ change m = Some c /\
    truthy (name m) = true /\ truthy p = true /\ truthy c = true.
Proof.
  apply (emitted_mention_has_price_and_change [Scenario.rose_item]).
  vm_compute. left. reflexivity.
Defined.

(** C4: what the parser does on the sentences of the specification.  On
    "...주식이 1.5% 상승하여 878.42달러에 마감..." the price is "878.42" but the
    change is "+주식이1.5%", not "+1.5": the text in front of the magnitude
    and the percent sign after it stay in, and the header then shows a
    doubled percent sign.  With the directional phrase after a second
    comma the second attempt gives "+1.5%".  On the falling sentence the
    change is "주식이2.0%", not "-2.0". *)
Theorem directional_parsing_on_spec_sentences :
  parse_mention Scenario.rose_item
    = Returned (Some {| name := py "브로드컴 (AVGO)";
                        price := Some (py "878.42");
                        change := Some (py "+주식이1.5%") |}) /\
  stock_header {| name := py "브로드컴 (AVGO)";
                  price := Some (py "878.42");
                  change := Some (py "+주식이1.5%") |}
    = Some (nl ++ nl ++ py "━━━ 브로드컴 (AVGO) ━━━" ++ nl
               ++ py "$878.42 (+주식이1.5%%)") /\
  parse_mention Scenario.rose_item_late
    = Returned (Some {| name := py "브로드컴 (AVGO)";
                        price := Some (py "878.42");
                        change := Some (py "+1.5%") |}) /\
  parse_mention Scenario.fell_item
    = Returned (Some {| name := py "인텔 (INTC)";
                        price := Some (py "45.10");
                        change := Some (py "주식이2.0%") |}).
Proof. repeat split; vm_compute; reflexivity. Qed.

(* ================================================================== *)
(** ** Link normalization *)
(* ================================================================== *)

Section Links.

Import TelegramSender.
Import LinkShape.

Variable ticker : pystr.

Lemma origin_http (link : pystr) :
  startswith (origin ++ link) (py "http") = true.
Proof.
  apply startswith_app. vm_compute. reflexivity.
Qed.

Lemma base_url_http (link : pystr) :
  startswith (base_url ticker ++ link) (py "http") = true.
Proof.
  unfold base_url. rewrite <- !app_assoc.
  apply origin_http.
Qed.

(** The first step of [normalize_link] leaves an absolute URL. *)
Lemma rooted_http (link : pystr) :
  startswith (rooted ticker link) (py "http") = true.
Proof.
  unfold rooted.
  destruct (startswith link (py "http")) eqn:H; cbn [negb]; [exact H|].
  destruct (startswith link (py "/")); [apply origin_http|apply base_url_http].
Qed.

Lemma rooted_absolute (link : pystr) :
  startswith link (py "http") = true -> rooted ticker link = link.
Proof. intros H. unfold rooted. now rewrite H. Qed.

Lemma normalize_link_rooted (link : pystr) :
  normalize_link ticker link
  = let l1 := rooted ticker link in
    if negb (contains l1 (py "docid=")) && negb (contains l1 (py "doctype=news"))
    then if negb (contains l1 (py "?")) then l1 ++ default_query else l1
    else l1.
Proof. reflexivity. Qed.

Lemma default_query_docid (l : pystr) :
  contains (l ++ default_query) (py "docid=") = true.
Proof. apply contains_app_r. vm_compute. reflexivity. Qed.

Lemma normalize_link_idempotent (link : pystr) :
  normalize_link ticker (normalize_link ticker link)
  = normalize_link ticker link.
Proof.
  rewrite (normalize_link_rooted link). cbv zeta.
  pose proof (rooted_http link) as H1.
  remember (rooted ticker link) as l1 eqn:El1. clear El1.
  destruct (contains l1 (py "docid=")) eqn:Hd;
    destruct (contains l1 (py "doctype=news")) eqn:Ht; cbn [negb andb];
    try (rewrite normalize_link_rooted, (rooted_absolute l1 H1); cbv zeta;
         rewrite Hd, Ht; reflexivity).
  destruct (contains l1 (py "?")) eqn:Hq; cbn [negb].
  - rewrite normalize_link_rooted, (rooted_absolute l1 H1). cbv zeta.
    rewrite Hd, Ht, Hq. reflexivity.
  - rewrite normalize_link_rooted,
      (rooted_absolute _ (startswith_app _ default_query _ H1)).
    cbv zeta. rewrite default_query_docid. reflexivity.
Qed.

Lemma ensure_contains (key suffix h : pystr) :
  contains suffix key = true -> contains (ensure key suffix h) key = true.
Proof.
  intros H. unfold ensure. destruct (contains h key) eqn:Hk; cbn [negb]; auto.
  now apply contains_app_r.
Qed.

Lemma ensure_keeps (key suffix h sub : pystr) :
  contains h sub = true -> contains (ensure key suffix h) sub = true.
Proof.
  intros H. unfold ensure. destruct (contains h key); cbn [negb]; auto.
  now apply contains_app_l.
Qed.

Lemma ensure_http (key suffix h : pystr) :
  startswith h (py "http") = true ->
  startswith (ensure key suffix h) (py "http") = true.
Proof.
  intros H. unfold ensure. destruct (contains h key); cbn [negb]; auto.
  now apply startswith_app.
Qed.

Lemma ensure_fixed (key suffix h : pystr) :
  contains h key = true -> ensure key suffix h = h.
Proof. intros H. unfold ensure. now rewrite H. Qed.

(** [complete_news_href] as a chain of steps. *)
Lemma complete_news_href_chain (href : pystr) :
  complete_news_href ticker href
  = ensure (py "istrending=") (py "&istrending=false")
      (ensure (py "isdomestic=") (py "&isdomestic=false")
         (ensure (py "docid=") (py "&docid=5384592")
            (with_doctype (absolute ticker href)))).
Proof. reflexivity. Qed.

Lemma absolute_http (href : pystr) :
  startswith (absolute ticker href) (py "http") = true.
Proof.
  unfold absolute.
  destruct (startswith href (py "http")) eqn:E; cbn [negb];
    [exact E|apply base_url_http].
Qed.

Lemma with_doctype_http (h : pystr) :
  startswith h (py "http") = true ->
  startswith (with_doctype h) (py "http") = true.
Proof.
  intros H. unfold with_doctype.
  destruct (contains h (py "doctype=news")); cbn [negb]; auto.
  destruct (contains h (py "?")); now apply startswith_app.
Qed.

Lemma with_doctype_contains (h : pystr) :
  contains (with_doctype h) (py "doctype=news") = true.
Proof.
  unfold with_doctype.
  destruct (contains h (py "doctype=news")) eqn:E; cbn [negb]; auto.
  destruct (contains h (py "?")); apply contains_app_r;
    vm_compute; reflexivity.
Qed.

Lemma complete_news_href_complete (href : pystr) :
  complete (complete_news_href ticker href).
Proof.
  rewrite complete_news_href_chain.
  pose proof (with_doctype_http _ (absolute_http href)) as H1.
  pose proof (with_doctype_contains (absolute ticker href)) as H1'.
  split.
  - auto using ensure_http.
  - auto using ensure_keeps.
  - apply ensure_keeps, ensure_keeps, ensure_contains.
    vm_compute; reflexivity.
  - apply ensure_keeps, ensure_contains. vm_compute; reflexivity.
  - apply ensure_contains. vm_compute; reflexivity.
Qed.

Lemma complete_news_href_fixed (r : pystr) :
  complete r -> complete_news_href ticker r = r.
Proof.
  intros [Hh Ht Hd Hi Hr]. rewrite complete_news_href_chain.
  unfold absolute, with_doctype. rewrite Hh. cbn [negb]. rewrite Ht.
  cbn [negb].
  rewrite (ensure_fixed (py "docid=") _ r Hd).
  rewrite (ensure_fixed (py "isdomestic=") _ r Hi).
  exact (ensure_fixed (py "istrending=") _ r Hr).
Qed.

(** An absolute URL goes through the first step of [normalize_href] as it is. *)
Lemma normalize_href_absolute (r : pystr) :
  startswith r (py "http") = true ->
  normalize_href ticker r
  = let href := if contains r (py "docid=") || contains r (py "doctype=news")
                then complete_news_href ticker r else r in
    if startswith href (py "http") then Some href else None.
Proof.
  intros H. unfold normalize_href.
  change (py "/") with [47%N]. change (py "#") with [35%N].
  change (py "javascript:") with (106%N :: py "avascript:").
  rewrite !(startswith_http_not r _ _ H) by discriminate. reflexivity.
Qed.

Lemma normalize_href_idempotent (href r : pystr) :
  normalize_href ticker href = Some r -> normalize_href ticker r = Some r.
Proof.
  unfold normalize_href at 1.
  match goal with
  | |- match ?rooted with Some _ => _ | None => _ end = _ -> _ =>
      destruct rooted as [h|]; [|discriminate]
  end. cbv zeta.
  destruct (contains h (py "docid=") || contains h (py "doctype=news")) eqn:Hc.
  - pose proof (complete_news_href_complete h) as Hr.
    rewrite (complete_http _ Hr). intros [= <-].
    rewrite normalize_href_absolute by apply Hr.
    cbv zeta. rewrite (complete_docid _ Hr). cbn [orb].
    rewrite (complete_news_href_fixed _ Hr), (complete_http _ Hr). reflexivity.
  - destruct (startswith h (py "http")) eqn:Hh; [|discriminate].
    intros [= <-]. rewrite normalize_href_absolute by exact Hh.
    cbv zeta. now rewrite Hc, Hh.
Qed.

End Links.

(** C7.  Link normalization is idempotent, in the scraper and in the
    sender: normalizing a normalized URL gives the same URL, so the
    [doctype] and [docid] parameters (and the rest of the default query)
    are appended at most once and a second pass adds nothing. *)
Theorem link_normalization_idempotent (ticker link : pystr) :
  normalize_link ticker (normalize_link ticker link)
    = normalize_link ticker link /\
  match TelegramSender.normalize_href ticker link with
  | Some r => TelegramSender.normalize_href ticker r = Some r
  | None => True
  end.
Proof.
  split; [apply normalize_link_idempotent|].
  destruct (TelegramSender.normalize_href ticker link) as [r|] eqn:H; [|exact I].
  eapply normalize_href_idempotent; eauto.
Qed.

Example normalize_link_twice :
  normalize_link (py "IGV") (py "news/view")
    = py "https://invest.zum.com/etf/IGV/news/view?doctype=news&docid=5384592&isdomestic=false&istrending=false" /\
  normalize_link (py "IGV") (normalize_link (py "IGV") (py "news/view"))
    = normalize_link (py "IGV") (py "news/view").
Proof. split; vm_compute; reflexivity. Qed.

Example normalize_href_twice :
  TelegramSender.normalize_href (py "BLK") (py "/stock/BLK/?docid=77")
    = Some (py "https://invest.zum.com/stock/BLK/?docid=77&doctype=news&isdomestic=false&istrending=false") /\
  TelegramSender.normalize_href (py "BLK")
      (py "https://invest.zum.com/stock/BLK/?docid=77&doctype=news&isdomestic=false&istrending=false")
    = Some (py "https://invest.zum.com/stock/BLK/?docid=77&doctype=news&isdomestic=false&istrending=false").
Proof. split; vm_compute; reflexivity. Qed.

(* ================================================================== *)
(** ** Chunks *)
(* ================================================================== *)

Section Chunks.

Import TelegramSender.
Import Reader.

(** The loop is left within [fuel] turns when each turn cuts at least one
    character, and the messages it adds are the text cut in pieces of at
    most [n] characters. *)
Lemma split_rest_total (n : nat) (Hn : 0 < n) (fuel : nat) :
  forall (remaining_text : pystr) (messages : list pystr),
    List.length remaining_text <= fuel ->
    exists tail,
      split_rest fuel n remaining_text messages = Some (messages ++ tail) /\
      List.concat tail = remaining_text /\
      Forall (fun m => List.length m <= n) tail.
Proof.
  induction fuel as [|fuel IH]; intros remaining_text messages Hlen.
  - destruct remaining_text; [|simpl in Hlen; lia].
    exists []. simpl. rewrite app_nil_r. auto.
  - destruct remaining_text as [|c rest].
    + exists []. simpl. rewrite app_nil_r. auto.
    + cbn [split_rest]. unfold slice_to, slice_from.
      set (text := c :: rest) in *.
      destruct (IH (skipn n text) (messages ++ [firstn n text]))
        as (tail & Hrun & Hcat & Hall).
      { rewrite length_skipn. subst text. cbn [List.length] in *. lia. }
      exists (firstn n text :: tail). repeat split.
      * rewrite <- app_assoc in Hrun. exact Hrun.
      * simpl. rewrite Hcat. apply firstn_skipn.
      * constructor; [|exact Hall]. rewrite length_firstn. lia.
Qed.

Lemma split_message_by_total (n : nat) (Hn : 0 < n) (full_message : pystr) :
  exists messages,
    split_message_by n full_message = Some messages /\
    List.concat messages = full_message /\
    Forall (fun m => List.length m <= n) messages /\
    messages <> [].
Proof.
  unfold split_message_by, slice_to, slice_from.
  destruct (split_rest_total n Hn (List.length full_message)
              (skipn n full_message) [firstn n full_message])
    as (tail & Hrun & Hcat & Hall).
  { rewrite length_skipn. lia. }
  exists (firstn n full_message :: tail). repeat split.
  - exact Hrun.
  - simpl. rewrite Hcat. apply firstn_skipn.
  - constructor; [|exact Hall]. rewrite length_firstn. lia.
  - discriminate.
Qed.

Lemma strip_marked (m : pystr) :
  strip_continuation_marker (continuation ++ m) = m.
Proof.
  unfold strip_continuation_marker.
  rewrite startswith_prefix, skipn_app, skipn_all, Nat.sub_diag.
  reflexivity.
Qed.

Lemma reassemble_payloads (messages : list pystr) :
  reassemble (payloads messages) = List.concat messages.
Proof.
  destruct messages as [|first rest]; [reflexivity|].
  unfold payloads, reassemble. cbn [List.concat]. f_equal.
  induction rest as [|m rest IH]; [reflexivity|].
  cbn [map List.concat]. now rewrite strip_marked, IH.
Qed.

Lemma payloads_bounded (n : nat) (messages : list pystr) :
  Forall (fun m => List.length m <= n) messages ->
  Forall (fun c => List.length c <= n + List.length continuation)
         (payloads messages).
Proof.
  destruct messages as [|first rest]; [constructor|].
  intros H. inversion H as [|? ? Hf Hr]; subst. cbn [payloads].
  constructor; [lia|].
  induction Hr as [|m rest Hm Hr IH]; constructor.
  - rewrite length_app. lia.
  - apply IH. constructor; auto.
Qed.

End Chunks.

(** C5.  For every composed text the sender leaves its loop, and the
    chunks it sends give the text back exactly once the continuation
    marker is taken off every chunk but the first and the pieces are
    joined; this covers texts whose length is a multiple of the chunk
    length. *)
Theorem chunks_round_trip (full_message : pystr) :
  exists chunks,
    TelegramSender.sent_chunks full_message = Some chunks /\
    Reader.reassemble chunks = full_message.
Proof.
  destruct (split_message_by_total TelegramSender.MAX_LENGTH
              ltac:(unfold TelegramSender.MAX_LENGTH; lia) full_message)
    as (messages & Hrun & Hcat & _ & _).
  exists (TelegramSender.payloads messages). split.
  - unfold TelegramSender.sent_chunks, TelegramSender.split_message.
    now rewrite Hrun.
  - now rewrite reassemble_payloads.
Qed.

(** A text of exactly two chunk lengths is sent as two chunks. *)
Example exact_multiple_two_chunks :
  option_map (map (@List.length N))
    (TelegramSender.sent_chunks (repeat 97%N (2 * 3000)))
  = Some [3000; 3005].
Proof. vm_compute. reflexivity. Qed.

(** C2, as stated, fails: a message of 6038 characters is sent as three
    chunks, of which the second has 3005 characters, marker included. *)
Lemma second_chunk_exceeds_max :
  option_map (map (@List.length N))
    (TelegramSender.sent_chunks Scenario.long_message)
  = Some [3000; 3005; 43] /\
  TelegramSender.MAX_LENGTH < 3005.
Proof. split; [vm_compute; reflexivity|unfold TelegramSender.MAX_LENGTH; lia]. Qed.

(** C2, as the code has it.  The text is cut in messages of at most
    [MAX_LENGTH] characters; the first chunk is sent as cut, and every later
    chunk is sent with the five characters of the continuation marker in
    front, so that a chunk has at most [MAX_LENGTH + 5] characters. *)
Theorem chunk_lengths_bounded (full_message : pystr) :
  exists messages,
    TelegramSender.split_message full_message = Some messages /\
    TelegramSender.sent_chunks full_message
      = Some (TelegramSender.payloads messages) /\
    Forall (fun m => List.length m <= TelegramSender.MAX_LENGTH) messages /\
    List.length (hd [] (TelegramSender.payloads messages))
      <= TelegramSender.MAX_LENGTH /\
    Forall (fun c => List.length c <= TelegramSender.MAX_LENGTH + 5)
           (TelegramSender.payloads messages).
Proof.
  destruct (split_message_by_total TelegramSender.MAX_LENGTH
              ltac:(unfold TelegramSender.MAX_LENGTH; lia) full_message)
    as (messages & Hrun & _ & Hall & Hne).
  exists messages. repeat split.
  - exact Hrun.
  - unfold TelegramSender.sent_chunks, TelegramSender.split_message.
    now rewrite Hrun.
  - exact Hall.
  - destruct messages as [|first rest]; [contradiction|].
    now inversion Hall.
  - exact (payloads_bounded _ _ Hall).
Qed.

(* ================================================================== *)
(** ** Batch order *)
(* ================================================================== *)

Section Order.

Import Main.
Import Canonical.

Variable key : pystr -> nat.

Lemma insert_by_between (x : pystr) (l1 l2 : list pystr) :
  Forall (fun y => key y < key x) l1 ->
  Forall (fun y => key x <= key y) l2 ->
  insert_by key x (l1 ++ l2) = l1 ++ x :: l2.
Proof.
  intros H1 H2. induction H1 as [|y l1 Hy _ IH]; simpl.
  - destruct H2 as [|y l2 Hy _]; simpl; [reflexivity|].
    destruct (Nat.leb_spec (key x) (key y)); [reflexivity|lia].
  - destruct (Nat.leb_spec (key x) (key y)); [lia|]. now rewrite IH.
Qed.

Lemma buckets_range (ts : list pystr) (a n : nat) :
  Forall (fun y => a <= key y < a + n) (flat_map (bucket key ts) (seq a n)).
Proof.
  apply Forall_forall. intros y Hy.
  apply in_flat_map in Hy as (k & Hk & Hy).
  apply in_seq in Hk. apply filter_In in Hy as [_ Hy].
  apply Nat.eqb_eq in Hy. lia.
Qed.

Lemma flat_map_agree {A B} (f g : A -> list B) (l : list A) :
  (forall a, In a l -> f a = g a) -> flat_map f l = flat_map g l.
Proof.
  induction l as [|a l IH]; intros H; simpl; [reflexivity|].
  rewrite (H a), IH; auto using in_eq, in_cons.
Qed.

Lemma buckets_skip (x : pystr) (ts : list pystr) (a n : nat) :
  key x < a \/ a + n <= key x ->
  flat_map (bucket key (x :: ts)) (seq a n) = flat_map (bucket key ts) (seq a n).
Proof.
  intros Hx. apply flat_map_agree. intros k Hk. apply in_seq in Hk.
  unfold bucket. cbn [filter].
  destruct (Nat.eqb_spec (key x) k); [lia|reflexivity].
Qed.

(** A stable sort by a key below [n] lists the buckets in order. *)
Lemma sorted_buckets (n : nat) (ts : list pystr) :
  Forall (fun t => key t < n) ts ->
  sorted ts key = flat_map (bucket key ts) (seq 0 n).
Proof.
  induction 1 as [|x ts Hx Hts IH].
  - simpl. induction (seq 0 n); [reflexivity|assumption].
  - cbn [sorted fold_right]. fold (sorted ts key). rewrite IH.
    assert (Hseq : seq 0 n = seq 0 (key x) ++ key x :: seq (S (key x)) (n - S (key x))).
    { replace n with (key x + S (n - S (key x))) at 1 by lia.
      rewrite seq_app. reflexivity. }
    rewrite Hseq, !flat_map_app. cbn [flat_map].
    rewrite insert_by_between.
    + rewrite !buckets_skip by lia.
      f_equal. unfold bucket at 3. cbn [filter]. rewrite Nat.eqb_refl.
      reflexivity.
    + eapply Forall_impl; [|apply buckets_range]. simpl. intros; lia.
    + apply Forall_app. split.
      * apply Forall_forall. intros y Hy. apply filter_In in Hy as [_ Hy].
        apply Nat.eqb_eq in Hy. lia.
      * eapply Forall_impl; [|apply buckets_range]. simpl. intros; lia.
Qed.

End Order.

Section CanonicalOrder.

Import Main.
Import Canonical.

Lemma sort_key_unfold (t : pystr) :
  sort_key t =
  if eqb t (py "IGV") then 0
  else if eqb t (py "SOXL") then 1
  else if eqb t (py "BLK") then 2
  else if eqb t (py "IVZ") then 3
  else if eqb t (py "BRKU") then 4
  else 5.
Proof.
  unfold sort_key, mem, default_order.
  cbn [existsb index_of]. rewrite !(eqb_sym _ t).
  destruct (eqb t (py "IGV")); [reflexivity|].
  destruct (eqb t (py "SOXL")); [reflexivity|].
  destruct (eqb t (py "BLK")); [reflexivity|].
  destruct (eqb t (py "IVZ")); [reflexivity|].
  destruct (eqb t (py "BRKU")); reflexivity.
Qed.

Lemma sort_key_bound (t : pystr) : sort_key t < 6.
Proof.
  rewrite sort_key_unfold.
  repeat match goal with |- context [if ?b then _ else _] => destruct b end; lia.
Qed.

(** Which bucket a ticker falls in. *)
Lemma bucket_of_ticker (t : pystr) :
  (sort_key t =? 0) = eqb (py "IGV") t /\
  (sort_key t =? 1) = eqb (py "SOXL") t /\
  (sort_key t =? 2) = eqb (py "BLK") t /\
  (sort_key t =? 3) = eqb (py "IVZ") t /\
  (sort_key t =? 4) = eqb (py "BRKU") t /\
  (sort_key t =? 5) = negb (mem t default_order).
Proof.
  rewrite sort_key_unfold. unfold mem, default_order. cbn [existsb].
  rewrite !(eqb_sym _ t).
  destruct (eqb_spec t (py "IGV")) as [->|_]; [repeat split|].
  destruct (eqb_spec t (py "SOXL")) as [->|_]; [repeat split|].
  destruct (eqb_spec t (py "BLK")) as [->|_]; [repeat split|].
  destruct (eqb_spec t (py "IVZ")) as [->|_]; [repeat split|].
  destruct (eqb_spec t (py "BRKU")) as [->|_]; repeat split.
Qed.

Lemma sorted_is_canonical (tickers : list pystr) :
  sorted tickers sort_key = canonical_order tickers.
Proof.
  rewrite (sorted_buckets sort_key 6)
    by (apply Forall_forall; intros; apply sort_key_bound).
  unfold canonical_order, default_order, bucket.
  cbn [seq flat_map]. rewrite app_nil_r, <- !app_assoc.
  repeat (f_equal; [apply filter_ext; intros t; apply bucket_of_ticker|]).
  cbn [app]. apply filter_ext; intros t; apply bucket_of_ticker.
Qed.

End CanonicalOrder.

(* ================================================================== *)
(** ** Timers *)
(* ================================================================== *)

Section Time.

Lemma span_step (g : segment) (tl : timeline) :
  span (g :: tl) = seconds_in g + span tl.
Proof. reflexivity. Qed.

Lemma span_app (a b : timeline) : span (a ++ b) = span a + span b.
Proof.
  induction a as [|g a IH]; [reflexivity|].
  cbn [app]. rewrite !span_step, IH. lia.
Qed.

Lemma span_paced (tl : timeline) (n : nat) :
  span (tl ++ [Sleeping n]) = span tl + n.
Proof. rewrite span_app. unfold span. cbn. lia. Qed.

(** A timer takes effect when it is due or later, within the timeline,
    and what has run by then takes that long. *)
Lemma timer_fires_when (tl : timeline) :
  forall elapsed timeout t,
    timer_fires tl elapsed timeout = Some t ->
    timeout <= t /\ elapsed <= t /\ t <= elapsed + span tl /\
    elapsed + span (until_timer tl elapsed timeout) = t.
Proof.
  induction tl as [|g tl IH]; intros elapsed timeout t H; [discriminate|].
  destruct g as [n|n]; cbn [timer_fires until_timer] in *.
  - apply IH in H. rewrite !span_step. cbn [seconds_in]. lia.
  - destruct (Nat.leb_spec timeout (elapsed + n)) as [Hdue|Hnot].
    + injection H as <-. rewrite !span_step. cbn [seconds_in].
      unfold span. cbn [map list_sum fold_right]. lia.
    + apply IH in H. rewrite !span_step. cbn [seconds_in]. lia.
Qed.

(** A timeline that is over before the timer is due is not cut. *)
Lemma timer_fires_early (tl : timeline) :
  forall elapsed timeout,
    elapsed + span tl < timeout -> timer_fires tl elapsed timeout = None.
Proof.
  induction tl as [|g tl IH]; intros elapsed timeout H; [reflexivity|].
  rewrite span_step in H.
  destruct g as [n|n]; cbn [timer_fires seconds_in] in *.
  - apply IH. lia.
  - destruct (Nat.leb_spec timeout (elapsed + n)); [lia|]. apply IH. lia.
Qed.

(** A timeline that ends with a sleep is cut by a timer that is due
    before that sleep is over. *)
Lemma timer_fires_paced (tl : timeline) (n : nat) :
  forall elapsed timeout,
    timeout <= elapsed + span tl + n ->
    exists t, timer_fires (tl ++ [Sleeping n]) elapsed timeout = Some t.
Proof.
  induction tl as [|g tl IH]; intros elapsed timeout H.
  - cbn [app timer_fires]. unfold span in H. cbn in H.
    destruct (Nat.leb_spec timeout (elapsed + n)); [eauto|lia].
  - rewrite span_step in H.
    destruct g as [m|m]; cbn [app timer_fires seconds_in] in *.
    + apply IH. lia.
    + destruct (timeout <=? elapsed + m); [eauto|]. apply IH. lia.
Qed.

End Time.

(* ================================================================== *)
(** ** The batch *)
(* ================================================================== *)

Section Batch.

Variable s : site.

(** One turn of the loop appends one result, which names its ticker, and
    ends with the pacing sleep; it takes no longer than the extraction
    left to run and the pacing. *)
Lemma turn_one (ticker : pystr) :
  exists t r tl,
    turn s ticker = ([(t, r)], tl ++ [Sleeping pacing]) /\
    startswith r (ticker ++ py ":") = true /\
    span tl <= seconds_of s ticker.
Proof.
  unfold turn, seconds_of.
  destruct (get_zum_briefing_prefixed (page_of s ticker) ticker)
    as (r & -> & Hr).
  destruct (mem ticker [py "IGV"; py "SOXL"]) eqn:Hmem; [|eauto 8].
  unfold wait_for.
  destruct (timer_fires (briefing_timeline s ticker) 0 per_ticker_timeout)
    as [t|] eqn:Hfires; [|eauto 8].
  apply timer_fires_when in Hfires as (_ & _ & Hwithin & Hspan).
  unfold timeout_fallback. unfold mem in Hmem. cbn [existsb] in Hmem.
  destruct (eqb ticker (py "IGV")).
  - do 3 eexists. split; [reflexivity|]. split; [apply colon_prefixed|lia].
  - cbn [orb] in Hmem. rewrite orb_false_r in Hmem. rewrite Hmem.
    do 3 eexists. split; [reflexivity|]. split; [apply colon_prefixed|lia].
Qed.

Lemma scrape_ticker_one (clock : nat) (ticker : pystr) :
  exists time r clock',
    scrape_ticker s clock ticker = ([(time, r)], clock') /\
    startswith r (ticker ++ py ":") = true.
Proof.
  unfold scrape_ticker.
  destruct (turn_one ticker) as (t & r & tl & -> & Hr & _).
  cbn [map fst snd]. eauto 6.
Qed.

Lemma scrape_from_in_order (tickers : list pystr) :
  forall clock,
    Forall2 (fun t r => startswith r (t ++ py ":") = true)
            tickers (map snd (fst (scrape_from s clock tickers))).
Proof.
  induction tickers as [|t tickers IH]; intros clock; cbn [scrape_from].
  - constructor.
  - destruct (scrape_ticker_one clock t) as (time & r & clock' & -> & Hr).
    specialize (IH clock').
    destruct (scrape_from s clock' tickers) as [later finish].
    cbn [fst app map snd] in *. constructor; assumption.
Qed.

Lemma scrape_all_in_order (tickers : list pystr) :
  Forall2 (fun t r => startswith r (t ++ py ":") = true)
          tickers (fst (scrape_all_tickers s tickers)).
Proof.
  unfold scrape_all_tickers.
  pose proof (scrape_from_in_order tickers 0) as H.
  destruct (scrape_from s 0 tickers) as [trace finish]. exact H.
Qed.

(** The loop takes the time of its timeline. *)
Lemma scrape_from_finish (tickers : list pystr) :
  forall clock,
    snd (scrape_from s clock tickers) = clock + span (loop_timeline s tickers).
Proof.
  unfold loop_timeline.
  induction tickers as [|t tickers IH]; intros clock;
    cbn [scrape_from flat_map].
  - cbn [snd]. unfold span. cbn. lia.
  - unfold scrape_ticker. destruct (turn s t) as [appended tl]. cbn [snd].
    specialize (IH (clock + span tl)).
    destruct (scrape_from s (clock + span tl) tickers) as [later finish].
    cbn [snd] in *. rewrite span_app. lia.
Qed.

Lemma scrape_all_finish (tickers : list pystr) :
  snd (scrape_all_tickers s tickers) = span (loop_timeline s tickers).
Proof.
  unfold scrape_all_tickers.
  pose proof (scrape_from_finish tickers 0) as H.
  destruct (scrape_from s 0 tickers) as [trace finish]. exact H.
Qed.

(** The loop over a list that is not empty ends with a pacing sleep. *)
Lemma loop_timeline_paced (tickers : list pystr) :
  tickers <> [] ->
  exists tl, loop_timeline s tickers = tl ++ [Sleeping pacing].
Proof.
  unfold loop_timeline.
  induction tickers as [|t tickers IH]; intros Hne; [contradiction|].
  cbn [flat_map]. destruct (turn_one t) as (time & r & tl & -> & _ & _).
  cbn [snd]. destruct tickers as [|t' tickers].
  - cbn [flat_map]. rewrite app_nil_r. eauto.
  - destruct IH as (rest & ->); [discriminate|].
    exists ((tl ++ [Sleeping pacing]) ++ rest). now rewrite app_assoc.
Qed.

(** Whether the aggregate timer cuts the loop. *)
Lemma loop_timer (tickers : list pystr) :
  (snd (scrape_all_tickers s tickers) < aggregate_timeout ->
   timer_fires (loop_timeline s tickers) 0 aggregate_timeout = None) /\
  (aggregate_timeout <= snd (scrape_all_tickers s tickers) ->
   exists t, timer_fires (loop_timeline s tickers) 0 aggregate_timeout = Some t).
Proof.
  rewrite scrape_all_finish. split; intros H.
  - apply timer_fires_early. lia.
  - destruct tickers as [|t tickers].
    + unfold loop_timeline, span, aggregate_timeout in H. cbn in H. lia.
    + destruct (loop_timeline_paced (t :: tickers)) as (tl & Htl);
        [discriminate|].
      rewrite Htl in *. rewrite span_paced in H.
      apply timer_fires_paced. lia.
Qed.

Lemma fallbacks_in_order (fallback : pystr -> pystr) (tickers : list pystr) :
  (forall t, startswith (fallback t) (t ++ py ":") = true) ->
  Forall2 (fun t r => startswith r (t ++ py ":") = true)
          tickers (map fallback tickers).
Proof.
  intros H. induction tickers; constructor; auto.
Qed.

Lemma main_fallback_prefixed (t : pystr) :
  startswith (Main.fallback t) (t ++ py ":") = true.
Proof. apply colon_prefixed. Qed.

(** A run whose scraper is set up ends scraped or timed out, with one
    result for each ticker in the order of the list. *)
Lemma main_run_in_order (tickers : option (list pystr)) :
  exists results,
    (Main.run_scraper (Returned tt) s tickers = Scraped results \/
     Main.run_scraper (Returned tt) s tickers = TimedOut results) /\
    Forall2 (fun t r => startswith r (t ++ py ":") = true)
            (Main.ordered_tickers tickers) results.
Proof.
  unfold Main.run_scraper.
  pose proof (scrape_all_in_order (Main.ordered_tickers tickers)) as H.
  destruct (scrape_all_tickers s (Main.ordered_tickers tickers))
    as [results seconds].
  unfold wait_for.
  destruct (timer_fires (loop_timeline s (Main.ordered_tickers tickers)) 0
              aggregate_timeout).
  - eexists. split; [right; reflexivity|].
    apply fallbacks_in_order, main_fallback_prefixed.
  - eexists. split; [left; reflexivity|exact H].
Qed.

(** When the whole scrape takes longer than the aggregate timeout, the
    results of the run are the fallbacks, one for each ticker. *)
Lemma main_timeout (tickers : option (list pystr)) :
  aggregate_timeout
    < snd (scrape_all_tickers s (Main.ordered_tickers tickers)) ->
  Main.run_scraper (Returned tt) s tickers
  = TimedOut (map Main.fallback (Main.ordered_tickers tickers)).
Proof.
  intros H. unfold Main.run_scraper.
  destruct (proj2 (loop_timer (Main.ordered_tickers tickers))) as (t & Ht);
    [lia|].
  destruct (scrape_all_tickers s (Main.ordered_tickers tickers))
    as [results seconds].
  unfold wait_for. now rewrite Ht.
Qed.

Lemma scheduler_timeout (self_tickers : list pystr) :
  aggregate_timeout < snd (scrape_all_tickers s self_tickers) ->
  Scheduler.run_scraper (Returned tt) s self_tickers
  = TimedOut (map Scheduler.fallback self_tickers).
Proof.
  intros H. unfold Scheduler.run_scraper.
  destruct (proj2 (loop_timer self_tickers)) as (t & Ht); [lia|].
  destruct (scrape_all_tickers s self_tickers) as [results seconds].
  unfold wait_for. now rewrite Ht.
Qed.

End Batch.

(** C6.  The tickers are scraped in the canonical order IGV, SOXL, BLK,
    IVZ, BRKU whatever the order of submission, a ticker that is not in
    the canonical list coming after all that are, in its submitted order.
    A run whose scraper is set up ends scraped or timed out, and either
    way its results are one for each submitted ticker in that order, each
    naming its ticker.  Submitting BRKU, BLK, IGV gives the order IGV,
    BLK, BRKU. *)
Theorem batch_follows_canonical_order (s : site) (tickers : list pystr) :
  Main.ordered_tickers (Some tickers) = Canonical.canonical_order tickers /\
  Main.ordered_tickers (Some [py "BRKU"; py "BLK"; py "IGV"])
    = [py "IGV"; py "BLK"; py "BRKU"] /\
  exists results,
    (Main.run_scraper (Returned tt) s (Some tickers) = Scraped results \/
     Main.run_scraper (Returned tt) s (Some tickers) = TimedOut results) /\
    Forall2 (fun t r => startswith r (t ++ py ":") = true)
            (Canonical.canonical_order tickers) results.
Proof.
  split; [apply sorted_is_canonical|]. split; [vm_compute; reflexivity|].
  rewrite <- sorted_is_canonical. apply (main_run_in_order s (Some tickers)).
Qed.

(** The run on BRKU, BLK, IGV. *)
Example submitted_out_of_order :
  Main.run_scraper (Returned tt) Scenario.quick_site
    (Some [py "BRKU"; py "BLK"; py "IGV"])
  = Scraped [py "IGV:" ++ nl ++ py "오늘의 브리핑";
             py "BLK:" ++ nl ++ py "오늘의 브리핑";
             py "BRKU:" ++ nl ++ py "오늘의 브리핑"].
Proof. vm_compute. reflexivity. Qed.

(** Unknown tickers keep their submitted order behind the known ones. *)
Example unknown_tickers_last :
  Main.ordered_tickers
    (Some [py "QQQ"; py "BRKU"; py "ARKK"; py "IGV"; py "QQQ"])
  = [py "IGV"; py "BRKU"; py "QQQ"; py "ARKK"; py "QQQ"].
Proof. vm_compute. reflexivity. Qed.

(* ================================================================== *)
(** ** Timeouts *)
(* ================================================================== *)

(** C1, as stated, fails: [BLK] takes 200 seconds, so the aggregate
    timeout fires after [IGV] and [SOXL] have completed with their
    extracted content; the run then yields the fallback for every one of
    the five tickers, the first two included, and their extracted content
    is not among the results. *)
Lemma completed_results_are_replaced :
  results_at Scenario.slow_blk_site Main.default_order aggregate_timeout
    = [py "IGV:" ++ nl ++ py "오늘의 브리핑"; py "SOXL:" ++ nl ++ py "오늘의 브리핑"] /\
  Main.run_scraper (Returned tt) Scenario.slow_blk_site (Some Main.default_order)
    = TimedOut (map Main.fallback Main.default_order) /\
  nth_error (map Main.fallback Main.default_order) 0
    <> Some (py "IGV:" ++ nl ++ py "오늘의 브리핑") /\
  ~ In (py "IGV:" ++ nl ++ py "오늘의 브리핑")
       (map Main.fallback Main.default_order).
Proof.
  split; [vm_compute; reflexivity|]. split; [vm_compute; reflexivity|].
  split.
  - vm_compute. discriminate.
  - vm_compute. intros H.
    repeat (destruct H as [H|H]; [discriminate H|]). exact H.
Qed.

(** C1, as the code has it.  When the scrape of the whole list takes
    longer than the aggregate timeout, the run yields the fallback text
    for every ticker of the list, in the order of the list, whether or not
    its own extraction had completed by then. *)
Theorem aggregate_timeout_gives_fallbacks (s : site) (tickers : list pystr) :
  aggregate_timeout
    < snd (scrape_all_tickers s (Main.ordered_tickers (Some tickers))) ->
  aggregate_timeout < snd (scrape_all_tickers s tickers) ->
  Main.run_scraper (Returned tt) s (Some tickers)
    = TimedOut (map Main.fallback (Main.ordered_tickers (Some tickers))) /\
  Scheduler.run_scraper (Returned tt) s tickers
    = TimedOut (map Scheduler.fallback tickers).
Proof.
  intros Hmain Hsched. split.
  - now apply main_timeout.
  - now apply scheduler_timeout.
Qed.

Lemma aggregate_timeout_witness :
  Main.run_scraper (Returned tt) Scenario.slow_blk_site
      (Some Main.default_order)
    = TimedOut (map Main.fallback
                    (Main.ordered_tickers (Some Main.default_order))) /\
  Scheduler.run_scraper (Returned tt) Scenario.slow_blk_site Main.default_order
    = TimedOut (map Scheduler.fallback Main.default_order).
Proof.
  apply (aggregate_timeout_gives_fallbacks Scenario.slow_blk_site
           Main.default_order); vm_compute; lia.
Defined.

(** The fallback of an aggregate timeout points at the page of its ticker. *)
Example main_fallback_blk :
  Main.fallback (py "BLK")
  = py "BLK:" ++ nl ++ py "데일리 브리핑" ++ nl ++ nl
      ++ py "시간 초과로 인해 브리핑을 가져오지 못했습니다. 수동으로 확인해주세요: https://invest.zum.com/stock/BLK/".
Proof. vm_compute. reflexivity. Qed.



Section TimedTurn.

Variables (s : site) (ticker : pystr).

Hypothesis Hget : driver_get (page_of s ticker) = Returned tt.
Hypothesis Hbody : wait_body (page_of s ticker) = Returned tt.





End TimedTurn.




(** The batch of the witness: the page of IGV takes 45 seconds to open,
    the notice for IGV is appended then, and the briefing of BLK follows;
    the whole takes 59 seconds. *)
Example slow_igv_batch :
  scrape_from Scenario.slow_igv_site 0 [py "IGV"; py "BLK"]
  = ([(45, timeout_notice (py "IGV")
             (py "ISHARES TRUST EXPANDED TECH-SOFTWARE SECTOR ETF"));
      (57, py "BLK:" ++ nl ++ py "오늘의 브리핑")], 59).
Proof. vm_compute. reflexivity. Qed.

(** A page of IGV that opens in 5 seconds and takes 40 seconds to parse:
    the extraction takes 48 seconds, more than the timeout, and its own
    result is appended. *)
Example slow_parse_not_timed_out :
  per_ticker_timeout < seconds_of Scenario.slow_parse_site (py "IGV") /\
  scrape_from Scenario.slow_parse_site 0 [py "IGV"]
  = ([(48, py "IGV:" ++ nl ++ py "오늘의 브리핑")], 50).
Proof. split; [vm_compute; lia|vm_compute; reflexivity]. Qed.

(** Five turns of 22 seconds and their pacing delays take 120 seconds:
    the aggregate timer is due at the end of the last pacing sleep, and
    the run is timed out. *)
Example even_batch_timed_out :
  snd (scrape_all_tickers Scenario.even_site Main.default_order)
    = aggregate_timeout /\
  Main.run_scraper (Returned tt) Scenario.even_site (Some Main.default_order)
    = TimedOut (map Main.fallback Main.default_order).
Proof. split; vm_compute; reflexivity. Qed.

(* ================================================================== *)
(** ** More facts about Python strings *)
(* ================================================================== *)

Section SplitFacts.

Lemma startswith_eq (s p : pystr) :
  startswith s p = true -> s = p ++ skipn (List.length p) s.
Proof.
  revert s; induction p as [|c p IH]; intros s H; [reflexivity|].
  destruct s as [|d s]; cbn [startswith] in H; [discriminate|].
  apply andb_true_iff in H as [Hc H]. apply N.eqb_eq in Hc. subst d.
  cbn [List.length skipn app]. f_equal. now apply IH.
Qed.

Lemma split_go_nonempty (fuel : nat) (sep s cur : pystr) :
  split_go fuel sep s cur <> [].
Proof.
  revert s cur; induction fuel as [|fuel IH]; intros s cur;
    cbn [split_go]; [discriminate|].
  destruct s as [|c s]; [discriminate|].
  destruct (startswith (c :: s) sep); [discriminate|apply IH].
Qed.

Lemma join_cons (sep p : pystr) (rest : list pystr) :
  rest <> [] -> join sep (p :: rest) = p ++ sep ++ join sep rest.
Proof. destruct rest; [contradiction|reflexivity]. Qed.

Lemma join_split_go (fuel : nat) (sep : pystr) :
  forall s cur, join sep (split_go fuel sep s cur) = rev cur ++ s.
Proof.
  induction fuel as [|fuel IH]; intros s cur; cbn [split_go]; [reflexivity|].
  destruct s as [|c s]; [cbn [join]; now rewrite app_nil_r|].
  destruct (startswith (c :: s) sep) eqn:Hsep.
  - rewrite join_cons by apply split_go_nonempty.
    rewrite IH. cbn [rev app].
    now rewrite <- (startswith_eq _ _ Hsep).
  - rewrite IH. cbn [rev]. now rewrite <- app_assoc.
Qed.

(** Joining the fields of a split with the separator gives the text back. *)
Lemma join_split (s sep : pystr) : join sep (split s sep) = s.
Proof. unfold split. now rewrite join_split_go. Qed.

(** The characters of the fields of a split are characters of the text. *)
Lemma split_go_chars (fuel : nat) (sep : pystr) :
  forall s cur field c,
    In field (split_go fuel sep s cur) -> In c field ->
    In c cur \/ In c s.
Proof.
  induction fuel as [|fuel IH]; intros s cur field c Hf Hc; cbn [split_go] in Hf.
  - destruct Hf as [<-|[]]. apply in_app_or in Hc as [Hc|Hc]; auto.
    left. now apply in_rev.
  - destruct s as [|d s].
    + destruct Hf as [<-|[]]. left. now apply in_rev.
    + destruct (startswith (d :: s) sep).
      * destruct Hf as [<-|Hf]; [left; now apply in_rev|].
        destruct (IH _ _ _ _ Hf Hc) as [[]|Hs]. right.
        clear - Hs. revert Hs. generalize (d :: s) as t.
        induction (List.length sep) as [|n IHn]; intros t Hs; [exact Hs|].
        destruct t as [|x t]; [destruct Hs|]. right. apply IHn. exact Hs.
      * destruct (IH _ _ _ _ Hf Hc) as [[<-|Hcur]|Hs]; auto.
        -- right. now left.
        -- right. now right.
Qed.

Lemma split_chars (s sep field : pystr) (c : N) :
  In field (split s sep) -> In c field -> In c s.
Proof.
  intros Hf Hc. destruct (split_go_chars _ _ _ _ _ _ Hf Hc) as [[]|H]; exact H.
Qed.

(** A prefix that holds no occurrence of the first character of the
    separator goes to the field being read as it is. *)
Lemma split_go_prefix (sep0 : N) (sep' : pystr) (a : pystr) :
  Forall (fun x => x <> sep0) a ->
  forall fuel s cur,
    split_go (List.length a + fuel) (sep0 :: sep') (a ++ s) cur
    = split_go fuel (sep0 :: sep') s (rev a ++ cur).
Proof.
  induction 1 as [|x a Hx _ IH]; intros fuel s cur; [reflexivity|].
  cbn [List.length Nat.add app split_go startswith].
  destruct (N.eqb_spec sep0 x) as [->|_]; [contradiction|].
  cbn [andb]. rewrite IH. cbn [rev]. now rewrite <- app_assoc.
Qed.

(** The first field of a split on one character is the text in front of
    the first occurrence of that character. *)
Lemma split_head (sep0 : N) (a rest : pystr) :
  Forall (fun x => x <> sep0) a ->
  exists fields, split (a ++ sep0 :: rest) [sep0] = a :: fields.
Proof.
  intros Ha. unfold split.
  rewrite length_app. cbn [List.length].
  replace (S (List.length a + S (List.length rest)))
    with (List.length a + S (S (List.length rest))) by lia.
  rewrite (split_go_prefix sep0 [] a Ha). cbn [split_go startswith].
  rewrite N.eqb_refl. cbn [andb]. rewrite app_nil_r, rev_involutive.
  eexists; reflexivity.
Qed.

Lemma contains_char (s : pystr) (c : N) :
  contains s [c] = false -> Forall (fun x => x <> c) s.
Proof.
  induction s as [|x s IH]; intros H; constructor;
    cbn [contains startswith] in H; apply orb_false_iff in H as [Hx Hs].
  - rewrite andb_true_r in Hx. apply N.eqb_neq in Hx. congruence.
  - auto.
Qed.

End SplitFacts.

(* ================================================================== *)
(** ** Delivery: the ticker, the retry text, the link message *)
(* ================================================================== *)

(** The ticker that delivery cuts out of a result ([main.py], lines 72-73;
    [scheduler.py], lines 70-73) is the ticker that was scraped, provided
    the symbol holds no colon and no white space at its ends. *)
Theorem delivery_recovers_ticker (pg : page) (ticker : pystr) :
  contains ticker (py ":") = false ->
  strip ticker = ticker ->
  exists r,
    get_zum_briefing pg ticker = Returned r /\
    delivery r = Returned (ticker, replace r (ticker ++ py ":") []).
Proof.
  intros Hcolon Hstrip.
  destruct (get_zum_briefing_prefixed pg ticker) as (r & Hr & Hpre).
  exists r. split; [exact Hr|].
  apply startswith_eq in Hpre.
  set (rest := skipn (List.length (ticker ++ py ":")) r) in Hpre.
  replace (py ":") with [58%N] in * by (vm_compute; reflexivity).
  rewrite <- app_assoc in Hpre. cbn [app] in Hpre.
  destruct (split_head 58 ticker rest (contains_char _ _ Hcolon))
    as (fields & Hsplit).
  unfold delivery.
  replace (py ":") with [58%N] by (vm_compute; reflexivity).
  rewrite Hpre at 1. rewrite Hsplit. cbn [item_at nth_error bind].
  now rewrite Hstrip.
Qed.

Lemma delivery_recovers_ticker_witness :
  exists r,
    get_zum_briefing (Scenario.plain_page (py "오늘의 브리핑")) (py "IGV")
      = Returned r /\
    delivery r = Returned (py "IGV", replace r (py "IGV" ++ py ":") []).
Proof.
  apply (delivery_recovers_ticker
           (Scenario.plain_page (py "오늘의 브리핑")) (py "IGV"));
    vm_compute; reflexivity.
Defined.

Section RetryText.

Import SenderText.

Lemma strip_tags_from_open (s opened : pystr) :
  Forall (fun x => x <> 62%N) s ->
  strip_tags_from s (Some opened) = rev opened ++ s.
Proof.
  intros H. revert opened.
  induction H as [|c s Hc _ IH]; intros opened; cbn [strip_tags_from].
  - now rewrite app_nil_r.
  - destruct (N.eqb_spec c 62); [contradiction|].
    rewrite IH. cbn [rev]. now rewrite <- app_assoc.
Qed.

(** What the scan leaves holds no tag: scanning it again changes nothing. *)
Lemma strip_tags_from_settled (s : pystr) :
  forall tag,
    match tag with
    | None => True
    | Some opened =>
        exists u, rev opened = 60%N :: u /\ Forall (fun x => x <> 62%N) u
    end ->
    strip_tags (strip_tags_from s tag) = strip_tags_from s tag.
Proof.
  induction s as [|c s IH]; intros tag Htag; cbn [strip_tags_from].
  - destruct tag as [opened|]; [|reflexivity].
    destruct Htag as (u & -> & Hu). unfold strip_tags.
    cbn [strip_tags_from]. now rewrite strip_tags_from_open.
  - destruct tag as [opened|].
    + destruct (N.eqb_spec c 62) as [->|Hc]; [now apply IH|].
      apply IH. destruct Htag as (u & Hrev & Hu).
      exists (u ++ [c]). cbn [rev]. rewrite Hrev. split; [reflexivity|].
      apply Forall_app. split; [exact Hu|]. now constructor.
    + destruct (N.eqb_spec c 60) as [->|Hc].
      * apply IH. exists []. split; [reflexivity|constructor].
      * unfold strip_tags. cbn [strip_tags_from].
        destruct (N.eqb_spec c 60); [contradiction|].
        f_equal. exact (IH None I).
Qed.

Lemma strip_tags_from_length (s : pystr) :
  forall tag,
    List.length (strip_tags_from s tag)
    <= List.length s + match tag with
                       | Some opened => List.length opened
                       | None => 0
                       end.
Proof.
  induction s as [|c s IH]; intros tag; cbn [strip_tags_from].
  - destruct tag; cbn [List.length]; [rewrite length_rev|]; lia.
  - destruct tag as [opened|].
    + destruct (c =? 62)%N.
      * specialize (IH None). simpl in *. lia.
      * specialize (IH (Some (c :: opened))). simpl in *. lia.
    + destruct (c =? 60)%N.
      * specialize (IH (Some [c])). simpl in *. lia.
      * specialize (IH None). simpl in *. lia.
Qed.

Lemma strip_tags_plain (s : pystr) :
  Forall (fun x => x <> 60%N) s -> strip_tags_from s None = s.
Proof.
  induction 1 as [|c s Hc _ IH]; cbn [strip_tags_from]; [reflexivity|].
  destruct (N.eqb_spec c 60); [contradiction|]. now rewrite IH.
Qed.

End RetryText.

(** The text of the plain retry of [send_message] (line 91): taking the
    tags off a text from which they were taken off changes nothing, and
    the text never gets longer. *)
Theorem strip_tags_idempotent (message_text : pystr) :
  SenderText.strip_tags (SenderText.strip_tags message_text)
    = SenderText.strip_tags message_text /\
  List.length (SenderText.strip_tags message_text)
    <= List.length message_text.
Proof.
  split.
  - exact (strip_tags_from_settled message_text None I).
  - pose proof (strip_tags_from_length message_text None) as H.
    unfold SenderText.strip_tags. simpl in H. lia.
Qed.

(** A text without [<] is retried as it is; so is the part of a text in
    front of its first [<]. *)
Theorem strip_tags_keeps_plain_text (plain rest : pystr) :
  Forall (fun x => x <> 60%N) plain ->
  SenderText.strip_tags plain = plain /\
  SenderText.strip_tags (plain ++ rest)
    = plain ++ SenderText.strip_tags rest.
Proof.
  intros H. split; [now apply strip_tags_plain|].
  unfold SenderText.strip_tags.
  induction H as [|c s Hc _ IH]; [reflexivity|].
  cbn [app SenderText.strip_tags_from].
  destruct (N.eqb_spec c 60); [contradiction|]. now rewrite IH.
Qed.

Lemma strip_tags_keeps_plain_text_witness :
  SenderText.strip_tags (py "ETF 5% up") = py "ETF 5% up" /\
  SenderText.strip_tags (py "ETF 5% up" ++ py "<b>IGV</b>")
    = py "ETF 5% up" ++ SenderText.strip_tags (py "<b>IGV</b>").
Proof.
  apply (strip_tags_keeps_plain_text (py "ETF 5% up") (py "<b>IGV</b>")).
  vm_compute. repeat constructor; discriminate.
Defined.

(** The text of a link (lines 205-206) is at most 100 characters long and
    keeps the first 97 characters of the text of the anchor. *)
Theorem link_text_bounded (link_text : pystr) :
  List.length (SenderText.shorten_link_text link_text) <= 100 /\
  firstn 97 (SenderText.shorten_link_text link_text) = firstn 97 link_text.
Proof.
  unfold SenderText.shorten_link_text, slice_to.
  destruct (Nat.ltb_spec 100 (List.length link_text)) as [Hlong|Hshort].
  - split.
    + rewrite length_app, length_firstn.
      replace (List.length (py "...")) with 3 by (vm_compute; reflexivity).
      lia.
    + rewrite firstn_app, length_firstn.
      replace (97 - Nat.min 97 (List.length link_text)) with 0 by lia.
      rewrite firstn_O, app_nil_r, firstn_firstn.
      now rewrite Nat.min_id.
  - split; [exact Hshort|reflexivity].
Qed.

Section LinkMessage.

Import SenderText.

Lemma links_header_latest_length (ticker : pystr) :
  List.length (links_header_latest ticker)
  = List.length (links_header ticker) + 8.
Proof.
  unfold links_header_latest, links_header. rewrite !length_app.
  replace (List.length (py " 뉴스 링크</b> (최신 5개)")) with 18
    by (vm_compute; reflexivity).
  replace (List.length (py " 뉴스 링크</b>")) with 10
    by (vm_compute; reflexivity).
  lia.
Qed.

End LinkMessage.

(** The link message (lines 281-293): when the list of at most five links
    is longer than 4000 characters, the message that replaces it lists the
    same links under the longer header, and so is 8 characters longer
    than the one it replaces. *)
Theorem short_link_list_not_shortened (ticker : pystr) (links : list pystr) :
  links <> [] ->
  List.length links <= 5 ->
  SenderText.links_limit
    < List.length (SenderText.links_header ticker
                     ++ SenderText.link_entries 0 links) ->
  exists sent,
    SenderText.links_message ticker links = Some sent /\
    sent = SenderText.links_header_latest ticker
             ++ SenderText.link_entries 0 links /\
    List.length sent
      = List.length (SenderText.links_header ticker
                       ++ SenderText.link_entries 0 links) + 8.
Proof.
  intros Hne Hfive Hlong. unfold SenderText.links_message.
  destruct links as [|l links]; [contradiction|].
  destruct (Nat.ltb_spec SenderText.links_limit
              (List.length (SenderText.links_header ticker
                              ++ SenderText.link_entries 0 (l :: links))));
    [|lia].
  rewrite firstn_all2 by exact Hfive.
  eexists. split; [reflexivity|]. split; [reflexivity|].
  rewrite !length_app, links_header_latest_length. lia.
Qed.

Lemma short_link_list_witness :
  exists sent,
    SenderText.links_message (py "IGV") LongLinks.one_long_link = Some sent /\
    sent = SenderText.links_header_latest (py "IGV")
             ++ SenderText.link_entries 0 LongLinks.one_long_link /\
    List.length sent
      = List.length (SenderText.links_header (py "IGV")
                       ++ SenderText.link_entries 0 LongLinks.one_long_link)
        + 8.
Proof.
  apply (short_link_list_not_shortened (py "IGV") LongLinks.one_long_link).
  - discriminate.
  - vm_compute. lia.
  - vm_compute. lia.
Defined.

(* ================================================================== *)
(** ** Cleaning the body *)
(* ================================================================== *)

Section Collapse.

Import SenderText.
Import TextShape.

Lemma flush_run_single (c : N) (run : pystr) :
  exists w, flush_run (c :: run) = [w].
Proof. destruct run; simpl; eauto. Qed.

Lemma has_space_pair_step (c d : N) (s : pystr) :
  has_space_pair (c :: d :: s)
  = (is_space c && is_space d) || has_space_pair (d :: s).
Proof. reflexivity. Qed.

Lemma has_space_pair_clean (c : N) (s : pystr) :
  is_space c = false -> has_space_pair (c :: s) = has_space_pair s.
Proof.
  intros Hc. destruct s as [|d s]; [reflexivity|].
  rewrite has_space_pair_step. now rewrite Hc.
Qed.

(** What the scan gives after a run of white space holds one white-space
    character for the run and goes on with another character. *)
Lemma collapse_from_shape (s : pystr) :
  forall run,
    has_space_pair (collapse_from s run) = false /\
    (run <> [] ->
     exists w rest,
       collapse_from s run = w :: rest /\ starts_clean rest = true).
Proof.
  induction s as [|c s IH]; intros run; cbn [collapse_from].
  - destruct run as [|r run].
    + split; [reflexivity|congruence].
    + destruct (flush_run_single r run) as (w & ->).
      split; [reflexivity|]. intros _. exists w, []. auto.
  - destruct (is_space c) eqn:Hc.
    + destruct (IH (c :: run)) as [Hpair Hshape]. split; [exact Hpair|].
      intros _. apply Hshape. discriminate.
    + destruct (IH []) as [Hpair _].
      assert (Hrest : has_space_pair (c :: collapse_from s []) = false)
        by now rewrite has_space_pair_clean.
      destruct run as [|r run].
      * split; [exact Hrest|congruence].
      * destruct (flush_run_single r run) as (w & ->). cbn [app].
        split.
        -- rewrite has_space_pair_step, Hc, andb_false_r. exact Hrest.
        -- intros _. exists w, (c :: collapse_from s []).
           split; [reflexivity|]. cbn [starts_clean]. now rewrite Hc.
Qed.

(** A text without two white-space characters in a row stays as it is. *)
Lemma collapse_from_settled (s : pystr) :
  has_space_pair s = false ->
  collapse_from s [] = s /\
  forall w, is_space w = true -> starts_clean s = true ->
            collapse_from s [w] = w :: s.
Proof.
  induction s as [|c s IH]; intros Hpair; [split; reflexivity|].
  assert (Hs : has_space_pair s = false).
  { destruct s as [|d s]; [reflexivity|].
    rewrite has_space_pair_step in Hpair.
    now apply orb_false_iff in Hpair. }
  destruct (IH Hs) as [IH0 IH1]. cbn [collapse_from].
  destruct (is_space c) eqn:Hc.
  - split.
    + rewrite IH1; auto. destruct s as [|d s]; [reflexivity|].
      rewrite has_space_pair_step in Hpair.
      apply orb_false_iff in Hpair as [Hcd _].
      rewrite Hc in Hcd. cbn [andb] in Hcd. cbn [starts_clean].
      now rewrite Hcd.
    + intros w _ Hstart. cbn [starts_clean] in Hstart.
      rewrite Hc in Hstart. discriminate.
  - rewrite IH0. split; [reflexivity|]. intros w _ _. reflexivity.
Qed.

Lemma no_pair_no_blank_line (t : pystr) :
  has_space_pair t = false -> contains t (nl ++ nl) = false.
Proof.
  change (nl ++ nl) with [10%N; 10%N].
  induction t as [|c t IH]; intros Hpair; [reflexivity|].
  destruct t as [|d t].
  - cbn [contains startswith]. now rewrite andb_false_r.
  - rewrite has_space_pair_step in Hpair.
    apply orb_false_iff in Hpair as [Hcd Ht].
    change (contains (c :: d :: t) [10%N; 10%N])
      with ((10 =? c)%N && ((10 =? d)%N && true)
            || contains (d :: t) [10%N; 10%N]).
    rewrite (IH Ht), orb_false_r, andb_true_r.
    destruct (N.eqb_spec 10 c) as [<-|]; [|reflexivity].
    destruct (N.eqb_spec 10 d) as [<-|]; [|reflexivity].
    discriminate Hcd.
Qed.

End Collapse.

(** The white-space step of the cleaning (line 222): in what it leaves no
    two white-space characters stand next to each other, so that no two
    line breaks do and no empty line is left; a text that has this shape
    already is left as it is, and the step is idempotent. *)
Theorem collapse_spaces_shape (body_text : pystr) :
  TextShape.has_space_pair (SenderText.collapse_spaces body_text) = false /\
  contains (SenderText.collapse_spaces body_text) (nl ++ nl) = false /\
  SenderText.collapse_spaces (SenderText.collapse_spaces body_text)
    = SenderText.collapse_spaces body_text.
Proof.
  destruct (collapse_from_shape body_text []) as [Hpair _].
  unfold SenderText.collapse_spaces. split; [exact Hpair|]. split.
  - now apply no_pair_no_blank_line.
  - now apply collapse_from_settled.
Qed.

Section CleanLines.

Import SenderText.
Import TextShape.

Lemma lstrip_starts_clean (s : pystr) : starts_clean (lstrip s) = true.
Proof.
  induction s as [|c s IH]; [reflexivity|]. cbn [lstrip].
  destruct (is_space c) eqn:Hc; [exact IH|]. cbn [starts_clean].
  now rewrite Hc.
Qed.

Lemma lstrip_suffix (s : pystr) : exists ws, s = ws ++ lstrip s.
Proof.
  induction s as [|c s [ws IH]]; [exists []; reflexivity|]. cbn [lstrip].
  destruct (is_space c).
  - exists (c :: ws). cbn [app]. now f_equal.
  - exists []. reflexivity.
Qed.

(** A stripped text neither starts nor ends with white space. *)
Lemma strip_clean_ends (s : pystr) :
  starts_clean (strip s) = true /\ starts_clean (rev (strip s)) = true.
Proof.
  unfold strip, rstrip. rewrite rev_involutive. split.
  - destruct (lstrip_suffix (rev (lstrip s))) as (ws & Hws).
    pose proof (lstrip_starts_clean s) as Hstart.
    apply (f_equal (@rev N)) in Hws.
    rewrite rev_involutive, rev_app_distr in Hws.
    destruct (rev (lstrip (rev (lstrip s)))) as [|c t]; [reflexivity|].
    rewrite Hws in Hstart. exact Hstart.
  - apply lstrip_starts_clean.
Qed.

Lemma clean_line_kept (raw line : pystr) :
  clean_line raw = Some line ->
  line = strip raw /\
  3 < List.length line /\
  starts_css_rule line = false /\
  contains line (py "{") && contains line (py "}") = false /\
  startswith line (py ".") = false /\
  startswith line (py "#") = false /\
  startswith line (py "{") = false.
Proof.
  unfold clean_line. cbv zeta.
  destruct (truthy (strip raw)); cbn [negb]; [|discriminate].
  destruct (starts_css_rule (strip raw)) eqn:Hcss; cbn [orb]; [discriminate|].
  destruct (contains (strip raw) (py "{") && contains (strip raw) (py "}"))
    eqn:Hbr; [discriminate|].
  destruct (Nat.ltb_spec 3 (List.length (strip raw))); cbn [andb];
    [|discriminate].
  destruct (startswith (strip raw) (py ".")) eqn:H1; cbn [orb negb];
    [discriminate|].
  destruct (startswith (strip raw) (py "#")) eqn:H2; cbn [orb negb];
    [discriminate|].
  destruct (startswith (strip raw) (py "{")) eqn:H3; cbn [orb negb];
    [discriminate|].
  intros [= <-]. auto 10.
Qed.

End CleanLines.

(** The lines that the cleaning keeps (lines 229-245): each is a line of
    the text with the white space at its ends taken off, is longer than
    three characters, neither starts nor ends with white space, does not
    start with a dot, a hash or a brace, does not hold both braces and
    does not start like a CSS rule.  A line of three characters or fewer
    is never kept. *)
Theorem clean_lines_kept (body_text line : pystr) :
  In line (SenderText.clean_lines body_text) ->
  (exists raw, In raw (split body_text nl) /\ line = strip raw) /\
  3 < List.length line /\
  TextShape.starts_clean line = true /\
  TextShape.starts_clean (rev line) = true /\
  SenderText.starts_css_rule line = false /\
  contains line (py "{") && contains line (py "}") = false /\
  startswith line (py ".") = false /\
  startswith line (py "#") = false /\
  startswith line (py "{") = false.
Proof.
  unfold SenderText.clean_lines. intros H.
  apply in_flat_map in H as (raw & Hraw & H).
  destruct (SenderText.clean_line raw) as [kept|] eqn:Hkept;
    [|destruct H].
  destruct H as [<-|[]].
  destruct (clean_line_kept raw kept Hkept)
    as (Hstrip & Hlen & Hcss & Hbr & H1 & H2 & H3).
  split; [eauto|]. split; [exact Hlen|].
  rewrite Hstrip at 1 2. destruct (strip_clean_ends raw) as [Ha Hb].
  rewrite Ha, Hb. auto 10.
Qed.

Lemma clean_lines_kept_witness :
  (exists raw,
     In raw (split (py "  IGV rose 2%  " ++ nl ++ py "ok") nl) /\
     py "IGV rose 2%" = strip raw) /\
  3 < List.length (py "IGV rose 2%") /\
  TextShape.starts_clean (py "IGV rose 2%") = true /\
  TextShape.starts_clean (rev (py "IGV rose 2%")) = true /\
  SenderText.starts_css_rule (py "IGV rose 2%") = false /\
  contains (py "IGV rose 2%") (py "{")
    && contains (py "IGV rose 2%") (py "}") = false /\
  startswith (py "IGV rose 2%") (py ".") = false /\
  startswith (py "IGV rose 2%") (py "#") = false /\
  startswith (py "IGV rose 2%") (py "{") = false.
Proof.
  apply (clean_lines_kept (py "  IGV rose 2%  " ++ nl ++ py "ok")
           (py "IGV rose 2%")).
  vm_compute. left. reflexivity.
Defined.

(* ================================================================== *)
(** ** The text drawn on an image *)
(* ================================================================== *)

Section ImageText.

Import TextImage.

Lemma join_length_map (f : pystr -> pystr) (sep : pystr) (lines : list pystr) :
  (forall x, List.length (f x) = List.length x) ->
  List.length (join sep (map f lines)) = List.length (join sep lines).
Proof.
  intros Hf. induction lines as [|p lines IH]; [reflexivity|].
  destruct lines as [|q lines]; [apply Hf|].
  change (map f (p :: q :: lines)) with (f p :: map f (q :: lines)).
  rewrite !join_cons by discriminate.
  rewrite !length_app, Hf, IH. reflexivity.
Qed.

Lemma filter_line_length (line : pystr) :
  List.length (filter_line line) = List.length line.
Proof.
  unfold filter_line. destruct (existsb is_hangul line); [|reflexivity].
  apply length_map.
Qed.

Lemma ascii_or_space_not_hangul (c : N) :
  is_hangul (if (c <? 128)%N then c else 32%N) = false.
Proof.
  destruct (N.ltb_spec c 128); [|reflexivity].
  unfold is_hangul. destruct (N.leb_spec 44032 c); [lia|reflexivity].
Qed.

Lemma filter_line_no_hangul (line : pystr) :
  existsb is_hangul (filter_line line) = false.
Proof.
  unfold filter_line. destruct (existsb is_hangul line) eqn:H; [|exact H].
  clear H. induction line as [|c line IH]; [reflexivity|].
  cbn [map existsb]. now rewrite ascii_or_space_not_hangul, IH.
Qed.

Lemma join_no_hangul (lines : list pystr) :
  Forall (fun line => existsb is_hangul line = false) lines ->
  existsb is_hangul (join nl lines) = false.
Proof.
  induction 1 as [|p lines Hp Hl IH]; [reflexivity|].
  destruct lines as [|q lines]; [exact Hp|].
  rewrite join_cons by discriminate.
  rewrite !existsb_app, Hp, IH. reflexivity.
Qed.

End ImageText.

(** The text drawn on the image ([create_text_image], lines 684-694) has
    as many characters as the cleaned text, line by line, and holds no
    Hangul syllable. *)
Theorem display_text_shape (cleaned_content : pystr) :
  List.length (TextImage.display_text cleaned_content)
    = List.length cleaned_content /\
  existsb TextImage.is_hangul (TextImage.display_text cleaned_content) = false.
Proof.
  unfold TextImage.display_text. split.
  - rewrite join_length_map by apply filter_line_length.
    now rewrite join_split.
  - apply join_no_hangul. apply Forall_forall. intros line Hline.
    apply in_map_iff in Hline as (raw & <- & _).
    apply filter_line_no_hangul.
Qed.

(** A text without Hangul is drawn as it is. *)
Theorem display_text_keeps_other_text (cleaned_content : pystr) :
  existsb TextImage.is_hangul cleaned_content = false ->
  TextImage.display_text cleaned_content = cleaned_content.
Proof.
  intros H. unfold TextImage.display_text.
  rewrite <- (join_split cleaned_content nl) at 2. f_equal.
  rewrite <- (map_id (split cleaned_content nl)) at 2.
  apply map_ext_in. intros line Hline. unfold TextImage.filter_line.
  destruct (existsb TextImage.is_hangul line) eqn:Hh; [|reflexivity].
  apply existsb_exists in Hh as (c & Hc & Hhangul).
  assert (Hin : In c cleaned_content) by (eapply split_chars; eauto).
  assert (Hex : existsb TextImage.is_hangul cleaned_content = true)
    by (apply existsb_exists; eauto).
  congruence.
Qed.

Lemma display_text_keeps_other_text_witness :
  TextImage.display_text (py "IGV +2.5%" ++ nl ++ py "résumé")
  = py "IGV +2.5%" ++ nl ++ py "résumé".
Proof.
  apply (display_text_keeps_other_text (py "IGV +2.5%" ++ nl ++ py "résumé")).
  vm_compute. reflexivity.
Defined.

(* ================================================================== *)
(** ** Script-extracted links *)
(* ================================================================== *)

Lemma normalize_link_http (ticker link : pystr) :
  startswith (normalize_link ticker link) (py "http") = true.
Proof.
  rewrite normalize_link_rooted. cbv zeta.
  pose proof (rooted_http ticker link) as H.
  repeat match goal with
         | |- context [if ?b then _ else _] => destruct b
         end; auto using startswith_app.
Qed.

(** Every link that [extract_news_links] returns is an absolute URL, when
    the set built from the normalized links holds no other link; a script
    that raises gives no link. *)
Theorem script_links_absolute (pg : page) (ticker : pystr) :
  (forall links link, In link (set_order pg links) -> In link links) ->
  Forall (fun link => startswith link (py "http") = true)
         (extract_news_links pg ticker) /\
  (forall e, script_links pg = Raised e -> extract_news_links pg ticker = []).
Proof.
  intros Hset. split.
  - unfold extract_news_links.
    destruct (script_links pg) as [links|e]; cbn [bind]; [|constructor].
    assert (Hall : forall ls,
               Forall (fun link => startswith link (py "http") = true)
                      (set_order pg (map (normalize_link ticker) ls))).
    { intros ls. apply Forall_forall. intros link Hin.
      apply Hset in Hin. apply in_map_iff in Hin as (raw & <- & _).
      apply normalize_link_http. }
    destruct links as [|l links].
    + destruct (fallback_links pg) as [fb|e]; cbn [bind]; [apply Hall|constructor].
    + cbn [bind]. apply Hall.
  - intros e He. unfold extract_news_links. now rewrite He.
Qed.

Lemma script_links_absolute_witness :
  Forall (fun link => startswith link (py "http") = true)
         (extract_news_links Pages.linked_page (py "IGV")) /\
  (forall e, script_links Pages.linked_page = Raised e ->
             extract_news_links Pages.linked_page (py "IGV") = []).
Proof.
  apply (script_links_absolute Pages.linked_page (py "IGV")).
  intros links link Hin. cbn [set_order Pages.linked_page] in Hin.
  now apply in_rev.
Defined.

Example linked_page_links :
  extract_news_links Pages.linked_page (py "IGV")
  = [py "https://invest.zum.com/etf/IGV/news/2?doctype=news&docid=5384592&isdomestic=false&istrending=false";
     py "https://invest.zum.com/etf/IGV/?docid=1"].
Proof. vm_compute. reflexivity. Qed.

(* ================================================================== *)
(** ** More on the extractor *)
(* ================================================================== *)

(** A failure while the page is loaded (opening the URL, waiting for the
    body, reading the source, writing the snapshot) ends the extraction:
    the caller gets the error text with the message of the first step
    that failed, whatever the page holds. *)
Theorem page_load_failure_is_error (pg : page) (ticker e : pystr) :
  (driver_get pg ;;; wait_body pg ;;; page_source pg ;;; save_html pg)
    = Raised e ->
  get_zum_briefing pg ticker = Returned (error_result ticker e).
Proof.
  unfold get_zum_briefing, get_zum_briefing_body, try_except.
  destruct (driver_get pg); cbn [bind]; [|now intros [= ->]].
  destruct (wait_body pg); cbn [bind]; [|now intros [= ->]].
  destruct (page_source pg); cbn [bind]; [|now intros [= ->]].
  destruct (save_html pg); cbn [bind]; [discriminate|now intros [= ->]].
Qed.

Lemma page_load_failure_witness :
  get_zum_briefing Pages.wait_timeout_page (py "IGV")
  = Returned (error_result (py "IGV") (py "Message: timeout")).
Proof.
  apply (page_load_failure_is_error Pages.wait_timeout_page (py "IGV")).
  reflexivity.
Defined.

Section LoadedPage.

Variable pg : page.
Variable ticker : pystr.

Hypothesis Hget : driver_get pg = Returned tt.
Hypothesis Hwait : wait_body pg = Returned tt.
Hypothesis Hsource : page_source pg = Returned tt.
Hypothesis Hsave : save_html pg = Returned tt.

(** The body of the extraction on a page that loads. *)
Lemma loaded_body :
  get_zum_briefing_body pg ticker
  = (briefing_section <-
       (match heading pg with
        | NoHeading => Returned None
        | HeadingNoDiv =>
            Raised (py "'NoneType' object has no attribute 'find_parent'")
        | HeadingOneDiv => Returned None
        | HeadingIn sec => Returned (Some sec)
        end) ;;
     briefing <-
       (match briefing_section with
        | None =>
          alt <- alt_briefing pg ticker ;;
          match alt with
          | Some text => briefing_from_container pg ticker text
          | None => Returned None
          end
        | Some sec => Returned (Some (briefing_from_section sec))
        end) ;;
     match briefing with
     | Some b =>
       if truthy b then
         let b := if startswith b (ticker ++ py ":")
                  then strip (replace_first b (ticker ++ py ":") [])
                  else b in
         Returned (ticker ++ py ":" ++ nl ++ b)
       else Returned (ticker ++ py ": 브리핑 없음")
     | None => Returned (ticker ++ py ": 브리핑 없음")
     end).
Proof.
  unfold get_zum_briefing_body. now rewrite Hget, Hwait, Hsource, Hsave.
Qed.

Lemma no_container_body :
  heading pg = NoHeading \/ heading pg = HeadingOneDiv ->
  briefing_inner pg = None ->
  marker_div pg = None ->
  (mem ticker stock_tickers = true -> briefing_inner_stock pg = None) ->
  get_zum_briefing_body pg ticker = Returned (ticker ++ py ": 브리핑 없음").
Proof.
  intros Hhead Hinner Hmarker Hstock. rewrite loaded_body.
  assert (Halt : alt_briefing pg ticker = Returned None).
  { unfold alt_briefing. rewrite Hinner, Hmarker.
    destruct (mem ticker stock_tickers); [|reflexivity].
    now rewrite Hstock. }
  destruct Hhead as [-> | ->]; cbn [bind]; now rewrite Halt.
Qed.

Lemma numbered_shape (i : nat) (p : pystr) (ps : list pystr) :
  exists rest, numbered i (p :: ps) = 10%N :: rest.
Proof. cbn [numbered]. unfold nl. cbn [app]. eauto. Qed.

Lemma paragraphs_body (sec : section_obs) :
  heading pg = HeadingIn sec ->
  paragraphs sec <> [] ->
  startswith ticker nl = false ->
  get_zum_briefing_body pg ticker
  = Returned (ticker ++ py ":" ++ nl ++ numbered 1 (paragraphs sec)).
Proof.
  intros Hhead Hps Hticker. rewrite loaded_body, Hhead. cbn [bind].
  unfold briefing_from_section.
  destruct (paragraphs sec) as [|p ps]; [contradiction|].
  destruct (numbered_shape 1 p ps) as (rest & ->).
  cbn [truthy].
  assert (Hno : startswith (10%N :: rest) (ticker ++ py ":") = false).
  { destruct ticker as [|c t].
    - replace (py ":") with [58%N] by (vm_compute; reflexivity).
      reflexivity.
    - unfold nl in Hticker. cbn [startswith] in Hticker.
      rewrite andb_true_r in Hticker.
      cbn [app startswith]. rewrite N.eqb_sym, Hticker. reflexivity. }
  now rewrite Hno.
Qed.

Lemma replace_first_prefix (old rest : pystr) :
  old <> [] -> replace_first (old ++ rest) old [] = rest.
Proof.
  intros Hold. unfold replace_first, split.
  pose proof (startswith_prefix old rest) as Hpre.
  assert (Hskip : skipn (List.length old) (old ++ rest) = rest)
    by (rewrite skipn_app, skipn_all, Nat.sub_diag; reflexivity).
  remember (List.length (old ++ rest)) as n eqn:En. clear En.
  destruct (old ++ rest) as [|c s] eqn:E.
  - destruct old; [contradiction|discriminate E].
  - cbn [split_go]. rewrite Hpre.
    pose proof (split_go_nonempty n old (skipn (List.length old) (c :: s)) [])
      as Hne.
    destruct (split_go n old (skipn (List.length old) (c :: s)) [])
      as [|f fs]; [contradiction|].
    cbn [rev app List.length Nat.add]. exact Hskip.
Qed.

Lemma labelled_body (sec : section_obs) (rest : pystr) :
  heading pg = HeadingIn sec ->
  paragraphs sec = [] ->
  strip (section_text sec) = ticker ++ py ":" ++ rest ->
  get_zum_briefing_body pg ticker
  = Returned (ticker ++ py ":" ++ nl ++ strip rest).
Proof.
  intros Hhead Hps Htext. rewrite loaded_body, Hhead. cbn [bind].
  unfold briefing_from_section. rewrite Hps, Htext.
  assert (Htruthy : truthy (ticker ++ py ":" ++ rest) = true).
  { replace (py ":") with [58%N] by (vm_compute; reflexivity).
    destruct ticker; reflexivity. }
  rewrite Htruthy, colon_prefixed.
  rewrite (app_assoc ticker (py ":") rest), replace_first_prefix.
  - reflexivity.
  - replace (py ":") with [58%N] by (vm_compute; reflexivity).
    destruct ticker; discriminate.
Qed.

End LoadedPage.

(** On a page that loads and holds neither the heading block nor one of
    the known containers nor a block with a year or a percent sign, the
    extraction ends with the "no briefing" text for the ticker. *)
Theorem no_container_no_briefing (pg : page) (ticker : pystr) :
  driver_get pg = Returned tt ->
  wait_body pg = Returned tt ->
  page_source pg = Returned tt ->
  save_html pg = Returned tt ->
  heading pg = NoHeading \/ heading pg = HeadingOneDiv ->
  briefing_inner pg = None ->
  marker_div pg = None ->
  (mem ticker stock_tickers = true -> briefing_inner_stock pg = None) ->
  get_zum_briefing pg ticker = Returned (ticker ++ py ": 브리핑 없음").
Proof.
  intros H1 H2 H3 H4 Hhead Hinner Hmarker Hstock.
  unfold get_zum_briefing, try_except.
  now rewrite (no_container_body pg ticker H1 H2 H3 H4 Hhead Hinner Hmarker Hstock).
Qed.

Lemma no_container_witness :
  get_zum_briefing Pages.empty_page (py "BLK")
  = Returned (py "BLK" ++ py ": 브리핑 없음").
Proof.
  apply (no_container_no_briefing Pages.empty_page (py "BLK"));
    try reflexivity.
  right. reflexivity.
Defined.

(** Under the heading, the direct paragraphs of the block become the
    briefing, each on a line of its own with its number, counted from 1;
    the briefing starts with a line break after the label of the ticker. *)
Theorem paragraphs_are_numbered (pg : page) (ticker : pystr) (sec : section_obs) :
  driver_get pg = Returned tt ->
  wait_body pg = Returned tt ->
  page_source pg = Returned tt ->
  save_html pg = Returned tt ->
  heading pg = HeadingIn sec ->
  paragraphs sec <> [] ->
  startswith ticker nl = false ->
  get_zum_briefing pg ticker
  = Returned (ticker ++ py ":" ++ nl ++ numbered 1 (paragraphs sec)).
Proof.
  intros H1 H2 H3 H4 Hhead Hps Hticker.
  unfold get_zum_briefing, try_except.
  now rewrite (paragraphs_body pg ticker H1 H2 H3 H4 sec Hhead Hps Hticker).
Qed.

Lemma paragraphs_are_numbered_witness :
  get_zum_briefing (Pages.section_page Pages.two_paragraphs) (py "IGV")
  = Returned (py "IGV" ++ py ":" ++ nl
                ++ numbered 1 (paragraphs Pages.two_paragraphs)).
Proof.
  apply (paragraphs_are_numbered (Pages.section_page Pages.two_paragraphs)
           (py "IGV") Pages.two_paragraphs); try reflexivity.
  discriminate.
Defined.

Example two_paragraphs_numbered :
  numbered 1 (paragraphs Pages.two_paragraphs)
  = nl ++ py "1. 소프트웨어 업종이 강세를 보였습니다." ++ nl ++ py "2. 거래량이 늘었습니다.".
Proof. vm_compute. reflexivity. Qed.

(** When the text of the block starts with the label of the ticker, that
    one occurrence is taken off and the rest is stripped; a later
    occurrence of the label stays. *)
Theorem duplicate_label_removed_once
    (pg : page) (ticker : pystr) (sec : section_obs) (rest : pystr) :
  driver_get pg = Returned tt ->
  wait_body pg = Returned tt ->
  page_source pg = Returned tt ->
  save_html pg = Returned tt ->
  heading pg = HeadingIn sec ->
  paragraphs sec = [] ->
  strip (section_text sec) = ticker ++ py ":" ++ rest ->
  get_zum_briefing pg ticker
  = Returned (ticker ++ py ":" ++ nl ++ strip rest).
Proof.
  intros H1 H2 H3 H4 Hhead Hps Htext.
  unfold get_zum_briefing, try_except.
  now rewrite (labelled_body pg ticker H1 H2 H3 H4 sec rest Hhead Hps Htext).
Qed.

Lemma duplicate_label_witness :
  get_zum_briefing (Pages.section_page Pages.labelled) (py "IGV")
  = Returned (py "IGV" ++ py ":" ++ nl
                ++ strip (py " 소프트웨어 강세. IGV: 거래량 증가")).
Proof.
  apply (duplicate_label_removed_once (Pages.section_page Pages.labelled)
           (py "IGV") Pages.labelled (py " 소프트웨어 강세. IGV: 거래량 증가"));
    reflexivity.
Defined.

(* ================================================================== *)
(** ** More on the batch *)
(* ================================================================== *)

Section BatchTime.

Import Budget.

Variable s : site.

Lemma scrape_ticker_time (clock : nat) (ticker : pystr) :
  snd (scrape_ticker s clock ticker) <= clock + (seconds_of s ticker + pacing).
Proof.
  unfold scrape_ticker.
  destruct (turn_one s ticker) as (t & r & tl & -> & _ & Hspan).
  cbn [snd]. rewrite span_paced. lia.
Qed.

Lemma list_sum_step (a : nat) (l : list nat) :
  list_sum (a :: l) = a + list_sum l.
Proof. reflexivity. Qed.

Lemma scrape_from_time (tickers : list pystr) :
  forall clock, snd (scrape_from s clock tickers) <= clock + budget s tickers.
Proof.
  unfold budget.
  induction tickers as [|t tickers IH]; intros clock; cbn [scrape_from].
  - cbn [snd map list_sum fold_right]. lia.
  - pose proof (scrape_ticker_time clock t) as Ht.
    destruct (scrape_ticker s clock t) as [appended clock'].
    specialize (IH clock').
    destruct (scrape_from s clock' tickers) as [later finish].
    cbn [snd map] in *. rewrite list_sum_step. lia.
Qed.

Lemma scrape_all_time (tickers : list pystr) :
  snd (scrape_all_tickers s tickers) <= budget s tickers.
Proof.
  unfold scrape_all_tickers.
  pose proof (scrape_from_time tickers 0) as H.
  destruct (scrape_from s 0 tickers) as [trace finish]. exact H.
Qed.

Lemma insert_by_permutation (key : pystr -> nat) (x : pystr) (l : list pystr) :
  Permutation (Main.insert_by key x l) (x :: l).
Proof.
  induction l as [|y l IH]; cbn [Main.insert_by]; [reflexivity|].
  destruct (key x <=? key y); [reflexivity|].
  rewrite IH. apply perm_swap.
Qed.

Lemma sorted_permutation (key : pystr -> nat) (l : list pystr) :
  Permutation (Main.sorted l key) l.
Proof.
  induction l as [|x l IH]; [reflexivity|].
  cbn [Main.sorted fold_right]. fold (Main.sorted l key).
  rewrite insert_by_permutation. now constructor.
Qed.

Lemma budget_permutation (l l' : list pystr) :
  Permutation l l' -> budget s l = budget s l'.
Proof.
  unfold budget.
  induction 1; cbn [map]; rewrite ?list_sum_step; lia.
Qed.

End BatchTime.

(** When the times of the extractions and the pacing delays add up to
    less than the aggregate timeout, the run is not timed out: it yields
    what was scraped, one result for each submitted ticker, each naming
    its ticker, in the canonical order. *)
Theorem batch_within_budget (s : site) (tickers : list pystr) :
  Budget.budget s tickers < aggregate_timeout ->
  exists results,
    Main.run_scraper (Returned tt) s (Some tickers) = Scraped results /\
    results = fst (scrape_all_tickers s (Main.ordered_tickers (Some tickers))) /\
    List.length results = List.length tickers /\
    Forall2 (fun t r => startswith r (t ++ py ":") = true)
            (Main.ordered_tickers (Some tickers)) results.
Proof.
  intros Hbudget.
  pose proof (scrape_all_time s (Main.ordered_tickers (Some tickers))) as Htime.
  pose proof (scrape_all_in_order s (Main.ordered_tickers (Some tickers)))
    as Horder.
  pose proof (sorted_permutation Main.sort_key tickers) as Hperm.
  pose proof (proj1 (loop_timer s (Main.ordered_tickers (Some tickers))))
    as Htimer.
  cbn [Main.ordered_tickers] in *.
  rewrite (budget_permutation s _ _ Hperm) in Htime.
  unfold Main.run_scraper. cbn [Main.ordered_tickers].
  destruct (scrape_all_tickers s (Main.sorted tickers Main.sort_key))
    as [results seconds].
  cbn [fst snd] in *. unfold wait_for.
  rewrite Htimer by lia.
  exists results. repeat split; auto.
  rewrite <- (Forall2_length Horder). now apply Permutation_length.
Qed.

Lemma batch_within_budget_witness :
  exists results,
    Main.run_scraper (Returned tt) Scenario.quick_site
      (Some [py "BRKU"; py "BLK"; py "IGV"]) = Scraped results /\
    results = fst (scrape_all_tickers Scenario.quick_site
                     (Main.ordered_tickers (Some [py "BRKU"; py "BLK"; py "IGV"]))) /\
    List.length results = List.length [py "BRKU"; py "BLK"; py "IGV"] /\
    Forall2 (fun t r => startswith r (t ++ py ":") = true)
            (Main.ordered_tickers (Some [py "BRKU"; py "BLK"; py "IGV"]))
            results.
Proof.
  apply (batch_within_budget Scenario.quick_site
           [py "BRKU"; py "BLK"; py "IGV"]).
  vm_compute. lia.
Defined.

Section FallbackUrl.

Lemma startswith_common (p a b : pystr) :
  startswith (p ++ a) (p ++ b) = startswith a b.
Proof.
  induction p as [|c p IH]; [reflexivity|].
  cbn [app startswith]. now rewrite N.eqb_refl, IH.
Qed.

Lemma stock_url_not_etf_url (ticker front : pystr) :
  endswith (front ++ py "stock" ++ py "/" ++ ticker ++ py "/")
           (origin ++ py "/" ++ py "etf" ++ py "/" ++ ticker ++ py "/")
  = false.
Proof.
  unfold endswith. rewrite !rev_app_distr, <- !app_assoc.
  rewrite !startswith_common.
  replace (rev (py "stock")) with [107; 99; 111; 116; 115]%N
    by (vm_compute; reflexivity).
  replace (rev (py "etf")) with [102; 116; 101]%N
    by (vm_compute; reflexivity).
  reflexivity.
Qed.

End FallbackUrl.

(** The two copies of the aggregate-timeout fallback ([main.py], line 98;
    [scheduler.py], lines 97-99) give the same text, and the manual-check
    URL at its end is the URL that the scraper reads exactly for the five
    configured tickers: for any other ticker the scraper reads the page
    under [/etf/] while the fallback points under [/stock/]. *)
Theorem fallback_url_agreement (ticker : pystr) :
  Main.fallback ticker = Scheduler.fallback ticker /\
  endswith (Main.fallback ticker) (base_url ticker)
    = mem ticker Main.default_order.
Proof.
  split; [reflexivity|].
  destruct (eqb_spec ticker (py "IGV")) as [->|H1]; [vm_compute; reflexivity|].
  destruct (eqb_spec ticker (py "SOXL")) as [->|H2]; [vm_compute; reflexivity|].
  destruct (eqb_spec ticker (py "BLK")) as [->|H3]; [vm_compute; reflexivity|].
  destruct (eqb_spec ticker (py "IVZ")) as [->|H4]; [vm_compute; reflexivity|].
  destruct (eqb_spec ticker (py "BRKU")) as [->|H5]; [vm_compute; reflexivity|].
  assert (E1 : eqb ticker (py "IGV") = false)
    by (destruct (eqb_spec ticker (py "IGV")); congruence).
  assert (E2 : eqb ticker (py "SOXL") = false)
    by (destruct (eqb_spec ticker (py "SOXL")); congruence).
  assert (E3 : eqb ticker (py "BLK") = false)
    by (destruct (eqb_spec ticker (py "BLK")); congruence).
  assert (E4 : eqb ticker (py "IVZ") = false)
    by (destruct (eqb_spec ticker (py "IVZ")); congruence).
  assert (E5 : eqb ticker (py "BRKU") = false)
    by (destruct (eqb_spec ticker (py "BRKU")); congruence).
  unfold Main.fallback, base_url, mem, Main.default_order, stock_tickers.
  cbn [existsb]. rewrite E1, E2, E3, E4, E5. cbn [orb negb].
  replace (py "시간 초과로 인해 브리핑을 가져오지 못했습니다. 수동으로 확인해주세요: https://invest.zum.com/")
    with (py "시간 초과로 인해 브리핑을 가져오지 못했습니다. 수동으로 확인해주세요: https://invest.zum.com/" ++ [])
    by apply app_nil_r.
  rewrite !app_assoc. rewrite <- !app_assoc.
  match goal with
  | |- endswith (ticker ++ ?a ++ ?b ++ ?c ++ ?d ++ ?e ++ ?f ++ [] ++ ?g) _ = _ =>
      replace (ticker ++ a ++ b ++ c ++ d ++ e ++ f ++ [] ++ g)
        with ((ticker ++ a ++ b ++ c ++ d ++ e ++ f) ++ g)
        by (rewrite <- !app_assoc; reflexivity)
  end.
  apply stock_url_not_etf_url.
Qed.

(* ================================================================== *)
(** ** The scheduled run; the snapshot files *)
(* ================================================================== *)

(** The scheduled run ([scheduler.py]) does not reorder: scraped or timed
    out, its results are one for each ticker it was given, in the order
    in which they were given. *)
Theorem scheduler_keeps_given_order
    (new_scraper : outcome unit) (s : site) (self_tickers : list pystr) :
  match Scheduler.run_scraper new_scraper s self_tickers with
  | Scraped results | TimedOut results =>
      Forall2 (fun t r => startswith r (t ++ py ":") = true)
              self_tickers results
  | Failed => True
  end.
Proof.
  unfold Scheduler.run_scraper. destruct new_scraper; [|exact I].
  pose proof (scrape_all_in_order s self_tickers) as H.
  destruct (scrape_all_tickers s self_tickers) as [results seconds].
  unfold wait_for.
  destruct (timer_fires (loop_timeline s self_tickers) 0 aggregate_timeout).
  - apply fallbacks_in_order. intros t. apply colon_prefixed.
  - exact H.
Qed.

Section SnapshotNames.

Import Snapshot.

Lemma split_go_no_sep (c : N) (sep' d : pystr) :
  Forall (fun x => x <> c) d ->
  forall fuel cur, split_go fuel (c :: sep') d cur = [rev cur ++ d].
Proof.
  induction 1 as [|x d Hx _ IH]; intros fuel cur.
  - destruct fuel; cbn [split_go]; now rewrite ?app_nil_r.
  - destruct fuel as [|fuel]; [reflexivity|]. cbn [split_go startswith].
    destruct (N.eqb_spec c x) as [->|_]; [contradiction|]. cbn [andb].
    rewrite IH. cbn [rev]. now rewrite <- app_assoc.
Qed.

Lemma last_cons_nonempty {A} (x : A) (l : list A) (d : A) :
  l <> [] -> last (x :: l) d = last l d.
Proof. destruct l; [contradiction|reflexivity]. Qed.

(** The last field of a split on one character is what follows the last
    occurrence of that character. *)
Lemma split_go_last (c : N) (d : pystr) :
  Forall (fun x => x <> c) d ->
  forall a fuel cur,
    List.length (a ++ c :: d) <= fuel ->
    last (split_go fuel [c] (a ++ c :: d) cur) [] = d.
Proof.
  intros Hd. induction a as [|x a IH]; intros fuel cur Hfuel.
  - destruct fuel as [|fuel]; [cbn [app List.length] in Hfuel; lia|].
    cbn [app split_go startswith]. rewrite N.eqb_refl. cbn [andb skipn List.length].
    rewrite last_cons_nonempty by apply split_go_nonempty.
    now rewrite (split_go_no_sep c [] d Hd).
  - destruct fuel as [|fuel]; [cbn [app List.length] in Hfuel; lia|].
    cbn [app List.length] in Hfuel.
    cbn [app split_go startswith].
    destruct (c =? x)%N; cbn [andb skipn List.length].
    + rewrite last_cons_nonempty by apply split_go_nonempty.
      apply IH. lia.
    + apply IH. lia.
Qed.

Lemma split_last (c : N) (a d : pystr) :
  Forall (fun x => x <> c) d ->
  last (split (a ++ c :: d) [c]) [] = d.
Proof.
  intros Hd. unfold split. apply split_go_last; [exact Hd|lia].
Qed.

Lemma replace_suffix (c : N) (sep' d : pystr) :
  Forall (fun x => x <> c) d ->
  replace (d ++ c :: sep') (c :: sep') [] = d.
Proof.
  intros Hd. unfold replace, split.
  rewrite length_app.
  replace (S (List.length d + List.length (c :: sep')))
    with (List.length d + S (List.length (c :: sep'))) by lia.
  rewrite (split_go_prefix c sep' d Hd).
  assert (Hpre : startswith (c :: sep') (c :: sep') = true).
  { pose proof (startswith_prefix (c :: sep') []) as H.
    now rewrite app_nil_r in H. }
  remember (List.length (c :: sep')) as n eqn:En.
  cbn [split_go]. rewrite Hpre. rewrite En, skipn_all.
  rewrite app_nil_r, rev_involutive.
  cbn [List.length split_go join rev app]. now rewrite app_nil_r.
Qed.

Lemma forall_app_ne (c : N) (a b : pystr) :
  Forall (fun x => x <> c) a -> Forall (fun x => x <> c) b ->
  Forall (fun x => x <> c) (a ++ b).
Proof. intros Ha Hb. apply Forall_app. now split. Qed.

End SnapshotNames.

(** The date that the web view reads off the name of a snapshot
    ([app.py], lines 60-61) is the date under which the scraper wrote it
    ([scraper.py], lines 116-117), for a ticker without a slash and a
    date without a slash, an underscore or a dot; the ticker may hold
    underscores. *)
Theorem snapshot_date_round_trip (ticker date_str : pystr) :
  contains ticker (py "/") = false ->
  contains date_str (py "/") = false ->
  contains date_str (py "_") = false ->
  contains date_str (py ".") = false ->
  Snapshot.date_of_file (Snapshot.snapshot_path ticker date_str) = date_str.
Proof.
  replace (py "/") with [47%N] by (vm_compute; reflexivity).
  replace (py "_") with [95%N] by (vm_compute; reflexivity).
  replace (py ".") with [46%N] by (vm_compute; reflexivity).
  intros Ht Hslash Hunder Hdot.
  apply contains_char in Ht, Hslash, Hunder, Hdot.
  unfold Snapshot.date_of_file, Snapshot.basename, Snapshot.snapshot_path.
  cbv zeta.
  replace (py "/") with [47%N] by (vm_compute; reflexivity).
  replace (py "_") with [95%N] by (vm_compute; reflexivity).
  replace (py "/test_") with (47%N :: py "test_") by (vm_compute; reflexivity).
  replace (py ".html") with (46%N :: py "html") by (vm_compute; reflexivity).
  assert (Hhtml : Forall (fun x => x <> 47%N) (46%N :: py "html"))
    by (vm_compute; repeat constructor; discriminate).
  assert (Hhtml' : Forall (fun x => x <> 95%N) (46%N :: py "html"))
    by (vm_compute; repeat constructor; discriminate).
  assert (Htest : Forall (fun x => x <> 47%N) (py "test_"))
    by (vm_compute; repeat constructor; discriminate).
  change ((47%N :: py "test_") ++ ticker ++ [95%N] ++ date_str ++ 46%N :: py "html")
    with (47%N :: (py "test_" ++ ticker ++ [95%N] ++ date_str ++ 46%N :: py "html")).
  rewrite split_last.
  - rewrite (app_assoc (py "test_") ticker). cbn [app].
    rewrite split_last by now apply forall_app_ne.
    now apply replace_suffix.
  - repeat apply forall_app_ne; auto.
    repeat constructor; discriminate.
Qed.

Lemma snapshot_date_witness :
  Snapshot.date_of_file (Snapshot.snapshot_path (py "BRK_B") (py "20250328"))
  = py "20250328".
Proof.
  apply (snapshot_date_round_trip (py "BRK_B") (py "20250328"));
    vm_compute; reflexivity.
Defined.
